(** * ATO-simulator: longitudinal dynamics of a single train

    A shallow embedding of [src/ato_simulator/ato.py] (class [ATOSingleTrain])
    and the properties of its force laws and of its [step] method.

    Numbers.  Python's [float] and numpy's [float64] are idealised as the
    real numbers [R] of the Standard Library: [+], [-], [*], [/] are exact,
    [abs] is [Rabs], [v**2] is [v ^ 2] and [np.sin] is [sin].  Rounding,
    infinities and NaN are outside the model.

    Objects.  The train object ([self]) and numpy arrays are mutable Python
    objects; they live in a store and are passed by reference.  Methods run
    in a state-and-exception monad over that store. *)

From Stdlib Require Import Reals Lra.
From stdpp Require Import gmap strings list.

Open Scope R_scope.

(** ** Python exceptions and the store *)

Inductive exn :=
  | AssertionError (msg : string)
  | ZeroDivisionError
  | IndexError
  | AttributeError.

Inductive Result (A : Type) :=
  | Ok (a : A)
  | Raise (e : exn).
Arguments Ok {A} a.
Arguments Raise {A} e.

(** The attributes set by [ATOSingleTrain.__init__]. *)
Record ATOSingleTrain := {
  a_davis_formula : R;
  b_davis_formula : R;
  c_davis_formula : R;
  train_mass : R;
  maximum_traction_force : R;
  maximum_braking_force : R;
}.

(** A numpy array: its [shape] and its flat buffer. *)
Record ndarray := {
  shape : list nat;
  data : list R;
}.

Definition ndarray_wf (arr : ndarray) : Prop :=
  length (data arr) = foldr Nat.mul 1%nat (shape arr).

Definition loc := positive.

Record Store := {
  trains : gmap loc ATOSingleTrain;
  arrays : gmap loc ndarray;
}.

Definition Py (A : Type) : Type := Store -> Result A * Store.

Definition ret {A} (a : A) : Py A := fun σ => (Ok a, σ).

Definition raise {A} (e : exn) : Py A := fun σ => (Raise e, σ).

Definition bind {A B} (m : Py A) (k : A -> Py B) : Py B :=
  fun σ => match m σ with
           | (Ok a, σ') => k a σ'
           | (Raise e, σ') => (Raise e, σ')
           end.

Notation "x <- m ;; k" := (bind m (fun x => k))
  (at level 100, m at next level, right associativity).
Notation "m ;;; k" := (bind m (fun _ => k))
  (at level 100, right associativity).

(** [assert cond, msg] *)
Definition py_assert (cond : bool) (msg : string) : Py unit :=
  if cond then ret tt else raise (AssertionError msg).

(** [self.<field>] *)
Definition getattr {A} (self : loc) (field : ATOSingleTrain -> A) : Py A :=
  fun σ => match trains σ !! self with
           | Some t => (Ok (field t), σ)
           | None => (Raise AttributeError, σ)
           end.

(** [arr.shape] *)
Definition get_shape (arr : loc) : Py (list nat) :=
  fun σ => match arrays σ !! arr with
           | Some a => (Ok (shape a), σ)
           | None => (Raise AttributeError, σ)
           end.

(** [arr[i]] on a one-dimensional array *)
Definition getitem (arr : loc) (i : nat) : Py R :=
  fun σ => match arrays σ !! arr with
           | Some a =>
               match data a !! i with
               | Some x => (Ok x, σ)
               | None => (Raise IndexError, σ)
               end
           | None => (Raise AttributeError, σ)
           end.

(** [arr[i] = x] on a one-dimensional array: mutates the object in place *)
Definition setitem (arr : loc) (i : nat) (x : R) : Py unit :=
  fun σ => match arrays σ !! arr with
           | Some a =>
               if decide (i < length (data a))%nat then
                 (Ok tt, {| trains := trains σ;
                            arrays := <[arr := {| shape := shape a;
                                                  data := <[i := x]> (data a) |}]>
                                        (arrays σ) |})
               else (Raise IndexError, σ)
           | None => (Raise AttributeError, σ)
           end.

(** [np.array([...])]: a new one-dimensional array object *)
Definition np_array (xs : list R) : Py loc :=
  fun σ => let l := fresh (dom (arrays σ)) in
           (Ok l, {| trains := trains σ;
                     arrays := <[l := {| shape := [length xs];
                                         data := xs |}]> (arrays σ) |}).

(** Python's built-in [max(a, b)] and [min(a, b)] on two arguments: the
    first argument is kept unless the second is strictly better. *)
Definition py_max (a b : R) : R := if Rlt_dec a b then b else a.
Definition py_min (a b : R) : R := if Rlt_dec b a then b else a.

#[global] Instance Rle_decision (x y : R) : Decision (x <= y) := Rle_dec x y.
#[global] Instance Rge_decision (x y : R) : Decision (x >= y) := Rge_dec x y.
#[global] Instance Rgt_decision (x y : R) : Decision (x > y) := Rgt_dec x y.
#[global] Instance Req_decision : EqDecision R := Req_dec_T.

(** ** class ATOSingleTrain *)

(** [__init__]: a new train object holding the six constants *)
Definition init (a_davis b_davis c_davis mass max_traction max_braking : R)
  : Py loc :=
  fun σ => let l := fresh (dom (trains σ)) in
           (Ok l, {| trains := <[l := {| a_davis_formula := a_davis;
                                         b_davis_formula := b_davis;
                                         c_davis_formula := c_davis;
                                         train_mass := mass;
                                         maximum_traction_force := max_traction;
                                         maximum_braking_force := max_braking |}]>
                                (trains σ);
                     arrays := arrays σ |}).

Definition aero_drag_and_rolling_res (self : loc) (velocity : R) : Py R :=
  a <- getattr self a_davis_formula ;;
  b <- getattr self b_davis_formula ;;
  c <- getattr self c_davis_formula ;;
  ret (a + b * Rabs velocity + c * velocity ^ 2).

Definition gradient_force (self : loc) (gradient : R) : Py R :=
  mass <- getattr self train_mass ;;
  ret (mass * 9.81 * sin gradient).

(** The operands are Python floats, so a zero radius raises. *)
Definition curvature_force (self : loc) (k_curvature curvature_radius : R)
  : Py R :=
  mass <- getattr self train_mass ;;
  if decide (curvature_radius = 0) then raise ZeroDivisionError
  else ret (mass * 9.81 * k_curvature / curvature_radius).

Definition step (self : loc) (state : loc) (action dt : R)
    (track_info journey_profile segment_profile : gmap string R)
  : Py (loc * gmap string R) :=
  py_assert (bool_decide (action >= -1) && bool_decide (action <= 1))
            "Action must be in the range [-1, 1]" ;;;
  shp <- get_shape state ;;
  py_assert (bool_decide (shp = [2%nat]))
            "State must be a 2D array with shape (2,)" ;;;
  py_assert (bool_decide (dt > 0)) "Time step must be positive" ;;;
  let gradient := 0 in
  let k_curvature := 0 in
  let curvature_radius := 1 in
  let max_speed := 100 / 3.6 in
  input_force <-
    (if bool_decide (action >= 0)
     then f <- getattr self maximum_traction_force ;; ret (action * f)
     else f <- getattr self maximum_braking_force ;; ret (action * f)) ;;
  gradient_force_ <- gradient_force self gradient ;;
  curvature_force_ <- curvature_force self k_curvature curvature_radius ;;
  state_1 <- getitem state 1 ;;
  aerodynamic_drag_and_rolling_res <- aero_drag_and_rolling_res self state_1 ;;
  let total_force :=
    input_force - gradient_force_ - curvature_force_
    - aerodynamic_drag_and_rolling_res in
  mass <- getattr self train_mass ;;
  let acceleration := total_force / mass in
  state_0 <- getitem state 0 ;;
  state_1 <- getitem state 1 ;;
  state_1' <- getitem state 1 ;;
  new_state <- np_array [state_0 + state_1 * dt; acceleration * dt + state_1'] ;;
  new_state_1 <- getitem new_state 1 ;;
  let speed_overshoot := py_max 0 (new_state_1 - max_speed) in
  new_state_1 <- getitem new_state 1 ;;
  setitem new_state 1 (py_min new_state_1 max_speed) ;;;
  let info : gmap string R :=
    <["input_force" := input_force]>
    (<["curvature_force" := curvature_force_]>
    (<["gradient_force" := gradient_force_]>
    (<["aero_drag_and_rolling_res" := aerodynamic_drag_and_rolling_res]>
    (<["speed_overshoot" := speed_overshoot]>
    (<["max_speed" := max_speed]>
    (<["curvature_radius" := curvature_radius]>
    (<["curvature" := k_curvature]>
    (<["gradient" := gradient]> ∅)))))))) in
  ret (new_state, info).

(** ** The step contract in the specification's words *)

Module Spec.

Definition g : R := 9.81.

Definition resistanceForce (t : ATOSingleTrain) (v : R) : R :=
  a_davis_formula t + b_davis_formula t * Rabs v + c_davis_formula t * (v * v).

Definition gradientForce (t : ATOSingleTrain) (angle : R) : R :=
  train_mass t * g * sin angle.

Definition curvatureForce (t : ATOSingleTrain) (factor radius : R) : R :=
  train_mass t * g * factor / radius.

Definition commandedForce (t : ATOSingleTrain) (action : R) : R :=
  if Rle_dec 0 action then action * maximum_traction_force t
  else action * maximum_braking_force t.

Definition speedLimit : R := 100 / 3.6.

Definition netForce (t : ATOSingleTrain) (v action : R) : R :=
  commandedForce t action - gradientForce t 0 - curvatureForce t 0 1
  - resistanceForce t v.

Definition acceleration (t : ATOSingleTrain) (v action : R) : R :=
  netForce t v action / train_mass t.

End Spec.

(** The diagnostics dictionary of a valid call, in these terms. *)
Definition step_info (t : ATOSingleTrain) (v action dt : R) : gmap string R :=
  <["input_force" := Spec.commandedForce t action]>
  (<["curvature_force" := Spec.curvatureForce t 0 1]>
  (<["gradient_force" := Spec.gradientForce t 0]>
  (<["aero_drag_and_rolling_res" := Spec.resistanceForce t v]>
  (<["speed_overshoot" :=
       Rmax 0 (v + Spec.acceleration t v action * dt - Spec.speedLimit)]>
  (<["max_speed" := Spec.speedLimit]>
  (<["curvature_radius" := 1]>
  (<["curvature" := 0]>
  (<["gradient" := 0]> ∅)))))))).

(** The call [step] violates one of the three asserted preconditions. *)
Definition precondition_violated (σ : Store) (state : loc) (action dt : R)
  : Prop :=
  ~ (-1 <= action <= 1)
  \/ (exists arr, arrays σ !! state = Some arr /\ shape arr <> [2%nat])
  \/ ~ (0 < dt).

(** ** A concrete store: the objects of [src/example.py] *)

Definition example_train : ATOSingleTrain :=
  {| a_davis_formula := 0.5;
     b_davis_formula := 0.1;
     c_davis_formula := 0.01;
     train_mass := 100000;
     maximum_traction_force := 500000;
     maximum_braking_force := 500000 |}.

Definition example_state (p v : R) : ndarray :=
  {| shape := [2%nat]; data := [p; v] |}.

Definition example_store (p v : R) : Store :=
  {| trains := {[1%positive := example_train]};
     arrays := {[1%positive := example_state p v]} |}.

Definition empty_store : Store := {| trains := ∅; arrays := ∅ |}.

(** The set-up of [src/example.py]: the constructor call and
    [state = np.array([0, 0])], from an empty store. *)
Definition example_setup : Py (loc * loc) :=
  train <- init 0.5 0.1 0.01 100000 500000 500000 ;;
  state <- np_array [0; 0] ;;
  ret (train, state).

(** The driving loop of [src/example.py] with a constant action: [n] calls
    of [step], each on the state returned by the call before. *)
Fixpoint drive (self state : loc) (action dt : R) (n : nat) : Py loc :=
  match n with
  | O => ret state
  | S n' =>
      r <- step self state action dt ∅ ∅ ∅ ;;
      drive self r.1 action dt n'
  end.

(** A train without resistance. *)
Definition frictionless_train : ATOSingleTrain :=
  {| a_davis_formula := 0;
     b_davis_formula := 0;
     c_davis_formula := 0;
     train_mass := 100000;
     maximum_traction_force := 500000;
     maximum_braking_force := 500000 |}.

Definition frictionless_store (p v : R) : Store :=
  {| trains := {[1%positive := frictionless_train]};
     arrays := {[1%positive := example_state p v]} |}.

(** The keys of the dictionary literal that [step] returns. *)
Definition info_keys : gset string :=
  {[ "gradient"; "curvature"; "curvature_radius"; "max_speed";
     "speed_overshoot"; "aero_drag_and_rolling_res";
     "gradient_force"; "curvature_force"; "input_force" ]}.

(** ** Running the primitives *)

Lemma py_max_Rmax a b : py_max a b = Rmax a b.
Proof.
  unfold py_max, Rmax. destruct (Rlt_dec a b), (Rle_dec a b); lra.
Qed.

Lemma py_min_Rmin a b : py_min a b = Rmin a b.
Proof.
  unfold py_min, Rmin. destruct (Rlt_dec b a), (Rle_dec a b); lra.
Qed.

(** Symbolic execution: one equation per primitive. *)

Lemma bind_ret {A B} (a : A) (k : A -> Py B) σ : bind (ret a) k σ = k a σ.
Proof. reflexivity. Qed.

Lemma bind_raise {A B} e (k : A -> Py B) σ :
  bind (raise e) k σ = (Raise e, σ).
Proof. reflexivity. Qed.

Lemma bind_bind {A B C} (m : Py A) (k : A -> Py B) (k' : B -> Py C) σ :
  bind (bind m k) k' σ = bind m (fun a => bind (k a) k') σ.
Proof. unfold bind. destruct (m σ) as [[a|e] σ']; reflexivity. Qed.

Lemma bind_assert_true {B} msg (k : unit -> Py B) σ :
  bind (py_assert true msg) k σ = k tt σ.
Proof. reflexivity. Qed.

Lemma bind_assert_false {B} msg (k : unit -> Py B) σ :
  bind (py_assert false msg) k σ = (Raise (AssertionError msg), σ).
Proof. reflexivity. Qed.

Lemma bind_getattr {A B} self (f : ATOSingleTrain -> A) (k : A -> Py B) σ t :
  trains σ !! self = Some t ->
  bind (getattr self f) k σ = k (f t) σ.
Proof. intros H. unfold bind, getattr. by rewrite H. Qed.

Lemma bind_getattr_none {A B} self (f : ATOSingleTrain -> A) (k : A -> Py B) σ :
  trains σ !! self = None ->
  bind (getattr self f) k σ = (Raise AttributeError, σ).
Proof. intros H. unfold bind, getattr. by rewrite H. Qed.

Lemma bind_get_shape {B} l (k : list nat -> Py B) σ arr :
  arrays σ !! l = Some arr ->
  bind (get_shape l) k σ = k (shape arr) σ.
Proof. intros H. unfold bind, get_shape. by rewrite H. Qed.

Lemma bind_getitem {B} l i (k : R -> Py B) σ arr x :
  arrays σ !! l = Some arr -> data arr !! i = Some x ->
  bind (getitem l i) k σ = k x σ.
Proof. intros H Hi. unfold bind, getitem. by rewrite H, Hi. Qed.

Lemma bind_setitem {B} l i x (k : unit -> Py B) σ arr :
  arrays σ !! l = Some arr -> (i < length (data arr))%nat ->
  bind (setitem l i x) k σ =
    k tt {| trains := trains σ;
            arrays := <[l := {| shape := shape arr;
                                data := <[i := x]> (data arr) |}]> (arrays σ) |}.
Proof.
  intros H Hi. unfold bind, setitem. rewrite H.
  by rewrite decide_True.
Qed.

Lemma bind_np_array {B} xs (k : loc -> Py B) σ :
  bind (np_array xs) k σ =
    k (fresh (dom (arrays σ)))
      {| trains := trains σ;
         arrays := <[fresh (dom (arrays σ)) :=
                      {| shape := [length xs]; data := xs |}]> (arrays σ) |}.
Proof. reflexivity. Qed.

(** The force-law methods read [self] and leave the store as it is. *)

Lemma aero_drag_and_rolling_res_run σ self t v :
  trains σ !! self = Some t ->
  aero_drag_and_rolling_res self v σ = (Ok (Spec.resistanceForce t v), σ).
Proof.
  intros H. unfold aero_drag_and_rolling_res.
  rewrite !(bind_getattr _ _ _ _ _ H). unfold ret, Spec.resistanceForce.
  do 2 f_equal. simpl. lra.
Qed.

Lemma gradient_force_run σ self t gradient :
  trains σ !! self = Some t ->
  gradient_force self gradient σ = (Ok (Spec.gradientForce t gradient), σ).
Proof.
  intros H. unfold gradient_force. by rewrite (bind_getattr _ _ _ _ _ H).
Qed.

Lemma curvature_force_run σ self t k_curvature curvature_radius :
  trains σ !! self = Some t ->
  curvature_radius <> 0 ->
  curvature_force self k_curvature curvature_radius σ =
    (Ok (Spec.curvatureForce t k_curvature curvature_radius), σ).
Proof.
  intros H Hr. unfold curvature_force. rewrite (bind_getattr _ _ _ _ _ H).
  by rewrite decide_False.
Qed.

Lemma curvature_force_zero_radius σ self t k_curvature :
  trains σ !! self = Some t ->
  curvature_force self k_curvature 0 σ = (Raise ZeroDivisionError, σ).
Proof.
  intros H. unfold curvature_force. rewrite (bind_getattr _ _ _ _ _ H).
  by rewrite decide_True.
Qed.

Lemma bind_run {A B} (m : Py A) (k : A -> Py B) σ σ' a :
  m σ = (Ok a, σ') -> bind m k σ = k a σ'.
Proof. intros H. unfold bind. by rewrite H. Qed.

Lemma step_ok σ self state t arr p v action dt ti jp sp :
  trains σ !! self = Some t ->
  arrays σ !! state = Some arr ->
  shape arr = [2%nat] ->
  data arr !! 0%nat = Some p -> data arr !! 1%nat = Some v ->
  -1 <= action <= 1 -> 0 < dt ->
  step self state action dt ti jp sp σ =
    (Ok (fresh (dom (arrays σ)), step_info t v action dt),
     {| trains := trains σ;
        arrays := <[fresh (dom (arrays σ)) :=
                     {| shape := [2%nat];
                        data := [p + v * dt;
                                 Rmin (v + Spec.acceleration t v action * dt)
                                      Spec.speedLimit] |}]> (arrays σ) |}).
Proof.
  intros Ht Harr Hshape H0 H1 [Hlo Hhi] Hdt.
  unfold step.
  rewrite !bool_decide_true by (try done; lra).
  rewrite bind_assert_true.
  rewrite (bind_get_shape _ _ _ _ Harr), Hshape.
  rewrite bool_decide_true by done.
  rewrite !bind_assert_true.
  assert (Hin : (if bool_decide (action >= 0)
     then f <- getattr self maximum_traction_force ;; ret (action * f)
     else f <- getattr self maximum_braking_force ;; ret (action * f)) σ
     = (Ok (Spec.commandedForce t action), σ)).
  { unfold Spec.commandedForce. case_bool_decide; destruct (Rle_dec 0 action); try lra;
      by rewrite (bind_getattr _ _ _ _ _ Ht). }
  rewrite (bind_run _ _ _ _ _ Hin).
  rewrite (bind_run _ _ _ _ _ (gradient_force_run _ _ _ _ Ht)).
  rewrite (bind_run _ _ _ _ _ (curvature_force_run _ _ _ _ _ Ht R1_neq_R0)).
  rewrite (bind_getitem _ _ _ _ _ _ Harr H1).
  rewrite (bind_run _ _ _ _ _ (aero_drag_and_rolling_res_run _ _ _ _ Ht)).
  rewrite (bind_getattr _ _ _ _ _ Ht).
  rewrite (bind_getitem _ _ _ _ _ _ Harr H0).
  rewrite !(bind_getitem _ _ _ _ _ _ Harr H1).
  rewrite bind_np_array.
  set (l := fresh (dom (arrays σ))).
  set (σ1 := {| trains := _; arrays := _ |}).
  set (a1 := {| shape := _; data := _ |}) in σ1.
  assert (Hl : arrays σ1 !! l = Some a1) by apply lookup_insert_eq.
  rewrite !(bind_getitem _ 1%nat _ _ _ _ Hl eq_refl).
  rewrite (bind_setitem _ 1%nat _ _ _ _ Hl) by (simpl; lia).
  unfold ret. simpl.
  rewrite insert_insert_eq, py_max_Rmax, py_min_Rmin.
  replace (_ / train_mass t * dt + v)
    with (v + Spec.acceleration t v action * dt)
    by (unfold Spec.acceleration, Spec.netForce; lra).
  reflexivity.
Qed.

(** Every call either raises, leaving the store as it was, or meets the
    conditions under which [step_ok] gives its result.  The exception is
    never [ZeroDivisionError], and it is an [AssertionError] only when a
    precondition is violated. *)
Lemma step_raise_or_ok σ self state action dt ti jp sp :
  (exists e, e <> ZeroDivisionError /\
             (forall msg, e = AssertionError msg ->
                          precondition_violated σ state action dt) /\
             step self state action dt ti jp sp σ = (Raise e, σ)) \/
  (exists t arr p v,
      trains σ !! self = Some t /\ arrays σ !! state = Some arr /\
      shape arr = [2%nat] /\
      data arr !! 0%nat = Some p /\ data arr !! 1%nat = Some v /\
      -1 <= action <= 1 /\ 0 < dt).
Proof.
  unfold step, precondition_violated.
  destruct (decide (action >= -1)) as [Hlo|Hlo]; cycle 1.
  { left. eexists. split; [|split]; cycle 2.
    - by rewrite (bool_decide_false _ Hlo).
    - done.
    - intros; left; lra. }
  destruct (decide (action <= 1)) as [Hhi|Hhi]; cycle 1.
  { left. eexists. split; [|split]; cycle 2.
    - by rewrite (bool_decide_false _ Hhi), andb_false_r.
    - done.
    - intros; left; lra. }
  rewrite (bool_decide_true _ Hlo), (bool_decide_true _ Hhi), bind_assert_true.
  destruct (arrays σ !! state) as [arr|] eqn:Harr; cycle 1.
  { left. exists AttributeError. do 2 (split; [done|]).
    unfold bind at 1, get_shape. by rewrite Harr. }
  rewrite (bind_get_shape _ _ _ _ Harr).
  destruct (decide (shape arr = [2%nat])) as [Hshape|Hshape]; cycle 1.
  { left. eexists. split; [|split]; cycle 2.
    - by rewrite (bool_decide_false _ Hshape).
    - done.
    - intros; right; left; eauto. }
  rewrite (bool_decide_true _ Hshape), bind_assert_true.
  destruct (decide (dt > 0)) as [Hdt|Hdt]; cycle 1.
  { left. eexists. split; [|split]; cycle 2.
    - by rewrite (bool_decide_false _ Hdt).
    - done.
    - intros; right; right; lra. }
  rewrite (bool_decide_true _ Hdt), bind_assert_true.
  destruct (trains σ !! self) as [t|] eqn:Ht; cycle 1.
  { left. exists AttributeError. do 2 (split; [done|]).
    unfold bind at 1. case_bool_decide; unfold bind, getattr; by rewrite Ht. }
  destruct (data arr) as [|p [|v rest]] eqn:Hdata.
  3: { right. exists t, arr, p, v. rewrite Hdata. repeat split; try done; lra. }
  all: left; exists IndexError; do 2 (split; [done|]).
  all: assert (Hin : exists f,
     (if bool_decide (action >= 0)
      then f <- getattr self maximum_traction_force ;; ret (action * f)
      else f <- getattr self maximum_braking_force ;; ret (action * f)) σ
     = (Ok f, σ))
    by (case_bool_decide; eexists; by rewrite (bind_getattr _ _ _ _ _ Ht)).
  all: destruct Hin as [f Hin]; rewrite (bind_run _ _ _ _ _ Hin).
  all: rewrite (bind_run _ _ _ _ _ (gradient_force_run _ _ _ _ Ht)).
  all: rewrite (bind_run _ _ _ _ _ (curvature_force_run _ _ _ _ _ Ht R1_neq_R0)).
  all: unfold bind at 1, getitem; by rewrite Harr, Hdata.
Qed.

(** The three assertions, in the order in which [step] checks them. *)

Lemma step_action_out_of_range σ self state action dt ti jp sp :
  ~ (-1 <= action <= 1) ->
  step self state action dt ti jp sp σ
  = (Raise (AssertionError "Action must be in the range [-1, 1]"), σ).
Proof.
  intros H. unfold step.
  destruct (decide (action >= -1)) as [Hlo|Hlo]; cycle 1.
  { by rewrite (bool_decide_false _ Hlo). }
  rewrite (bool_decide_false (action <= 1)) by lra.
  by rewrite andb_false_r.
Qed.

Lemma step_bad_shape σ self state arr action dt ti jp sp :
  -1 <= action <= 1 ->
  arrays σ !! state = Some arr -> shape arr <> [2%nat] ->
  step self state action dt ti jp sp σ
  = (Raise (AssertionError "State must be a 2D array with shape (2,)"), σ).
Proof.
  intros Ha Harr Hshape. unfold step.
  rewrite !bool_decide_true by lra. rewrite bind_assert_true.
  rewrite (bind_get_shape _ _ _ _ Harr).
  by rewrite (bool_decide_false _ Hshape).
Qed.

Lemma step_bad_dt σ self state arr action dt ti jp sp :
  -1 <= action <= 1 ->
  arrays σ !! state = Some arr -> shape arr = [2%nat] ->
  ~ (0 < dt) ->
  step self state action dt ti jp sp σ
  = (Raise (AssertionError "Time step must be positive"), σ).
Proof.
  intros Ha Harr Hshape Hdt. unfold step.
  rewrite !bool_decide_true by lra. rewrite bind_assert_true.
  rewrite (bind_get_shape _ _ _ _ Harr).
  rewrite (bool_decide_true _ Hshape), bind_assert_true.
  rewrite (bool_decide_false (dt > 0)) by lra. done.
Qed.

(** Reading the diagnostics dictionary built by [step]. *)

Ltac info_lookup :=
  unfold step_info;
  repeat (rewrite lookup_insert_ne by done);
  rewrite lookup_insert_eq.

Lemma step_info_input_force t v action dt :
  step_info t v action dt !! "input_force" = Some (Spec.commandedForce t action).
Proof. by info_lookup. Qed.

Lemma step_info_curvature_force t v action dt :
  step_info t v action dt !! "curvature_force" = Some (Spec.curvatureForce t 0 1).
Proof. by info_lookup. Qed.

Lemma step_info_gradient_force t v action dt :
  step_info t v action dt !! "gradient_force" = Some (Spec.gradientForce t 0).
Proof. by info_lookup. Qed.

Lemma step_info_resistance t v action dt :
  step_info t v action dt !! "aero_drag_and_rolling_res"
  = Some (Spec.resistanceForce t v).
Proof. by info_lookup. Qed.

Lemma step_info_overshoot t v action dt :
  step_info t v action dt !! "speed_overshoot"
  = Some (Rmax 0 (v + Spec.acceleration t v action * dt - Spec.speedLimit)).
Proof. by info_lookup. Qed.

Lemma step_info_max_speed t v action dt :
  step_info t v action dt !! "max_speed" = Some Spec.speedLimit.
Proof. by info_lookup. Qed.

Lemma step_info_curvature_radius t v action dt :
  step_info t v action dt !! "curvature_radius" = Some 1.
Proof. by info_lookup. Qed.

Lemma step_info_curvature t v action dt :
  step_info t v action dt !! "curvature" = Some 0.
Proof. by info_lookup. Qed.

Lemma step_info_gradient t v action dt :
  step_info t v action dt !! "gradient" = Some 0.
Proof. by info_lookup. Qed.

Lemma commandedForce_traction t action :
  0 <= action -> Spec.commandedForce t action = action * maximum_traction_force t.
Proof. intros H. unfold Spec.commandedForce. by destruct (Rle_dec 0 action). Qed.

Lemma commandedForce_braking t action :
  action < 0 -> Spec.commandedForce t action = action * maximum_braking_force t.
Proof.
  intros H. unfold Spec.commandedForce. destruct (Rle_dec 0 action); [lra|done].
Qed.

Lemma example_setup_run :
  example_setup empty_store = (Ok (1%positive, 1%positive), example_store 0 0).
Proof. reflexivity. Qed.

(** ** The contract of [step] on well-formed calls *)

Section StepContract.

Variables (σ : Store) (self state : loc) (t : ATOSingleTrain).
Variables (p v action dt : R).
Variables (track_info journey_profile segment_profile : gmap string R).

Hypothesis Hself : trains σ !! self = Some t.
Hypothesis Hstate :
  arrays σ !! state = Some {| shape := [2%nat]; data := [p; v] |}.
Hypothesis Haction : -1 <= action <= 1.
Hypothesis Hdt : 0 < dt.

Lemma step_run :
  step self state action dt track_info journey_profile segment_profile σ =
    (Ok (fresh (dom (arrays σ)), step_info t v action dt),
     {| trains := trains σ;
        arrays := <[fresh (dom (arrays σ)) :=
                     {| shape := [2%nat];
                        data := [p + v * dt;
                                 Rmin (v + Spec.acceleration t v action * dt)
                                      Spec.speedLimit] |}]> (arrays σ) |}).
Proof. by eapply step_ok. Qed.

(** C1: on a state (p, v) of shape (2,), an action in [-1, 1] and dt > 0,
    [step] returns a state and diagnostics such that: the commanded force
    is action * maximum_traction_force when action >= 0 and
    action * maximum_braking_force when action < 0; the gradient,
    curvature and resistance forces are those of the force laws at the
    start-of-step velocity v; with net = commanded - gradient - curvature
    - resistance and acceleration = net / mass, the new position is
    p + v * dt and the new velocity is the speed-limit clamp of
    v + acceleration * dt (one explicit Euler substep): the returned
    velocity plus the reported overshoot is exactly v + acceleration * dt. *)
Theorem step_explicit_euler :
  exists l info σ' commanded vel' overshoot,
    let gradient := train_mass t * 9.81 * sin 0 in
    let curvature := train_mass t * 9.81 * 0 / 1 in
    let resistance :=
      a_davis_formula t + b_davis_formula t * Rabs v
      + c_davis_formula t * v ^ 2 in
    let net := commanded - gradient - curvature - resistance in
    let acceleration := net / train_mass t in
    step self state action dt track_info journey_profile segment_profile σ
      = (Ok (l, info), σ') /\
    (action >= 0 -> commanded = action * maximum_traction_force t) /\
    (action < 0 -> commanded = action * maximum_braking_force t) /\
    info !! "input_force" = Some commanded /\
    info !! "gradient_force" = Some gradient /\
    info !! "curvature_force" = Some curvature /\
    info !! "aero_drag_and_rolling_res" = Some resistance /\
    info !! "speed_overshoot" = Some overshoot /\
    arrays σ' !! l = Some {| shape := [2%nat];
                             data := [p + v * dt; vel'] |} /\
    vel' = Rmin (v + acceleration * dt) (100 / 3.6) /\
    vel' + overshoot = v + acceleration * dt.
Proof.
  eexists _, _, _, (Spec.commandedForce t action), _, _. cbv zeta.
  split; [apply step_run|].
  split; [intros H; apply commandedForce_traction; lra|].
  split; [apply commandedForce_braking|].
  split; [apply step_info_input_force|].
  split; [by rewrite step_info_gradient_force|].
  split; [by rewrite step_info_curvature_force|].
  split.
  { rewrite step_info_resistance. unfold Spec.resistanceForce.
    do 2 f_equal. simpl. lra. }
  split; [apply step_info_overshoot|].
  split; [apply lookup_insert_eq|].
  assert (Hacc : Spec.acceleration t v action =
    (Spec.commandedForce t action - train_mass t * 9.81 * sin 0
     - train_mass t * 9.81 * 0 / 1
     - (a_davis_formula t + b_davis_formula t * Rabs v
        + c_davis_formula t * v ^ 2)) / train_mass t).
  { unfold Spec.acceleration, Spec.netForce, Spec.gradientForce,
      Spec.curvatureForce, Spec.resistanceForce, Spec.g. simpl.
    f_equal. lra. }
  rewrite <- Hacc. split; [done|].
  unfold Rmin, Rmax, Spec.speedLimit.
  destruct (Rle_dec _ _), (Rle_dec _ _); lra.
Qed.

End StepContract.

Lemma step_explicit_euler_witness :
  trains (example_store 0 0) !! 1%positive = Some example_train /\
  arrays (example_store 0 0) !! 1%positive
    = Some {| shape := [2%nat]; data := [0; 0] |} /\
  -1 <= 1 <= 1 /\ 0 < 0.01 /\
  exists l info σ' commanded vel' overshoot,
      let gradient := train_mass example_train * 9.81 * sin 0 in
      let curvature := train_mass example_train * 9.81 * 0 / 1 in
      let resistance :=
        a_davis_formula example_train + b_davis_formula example_train * Rabs 0
        + c_davis_formula example_train * 0 ^ 2 in
      let net := commanded - gradient - curvature - resistance in
      let acceleration := net / train_mass example_train in
      step 1%positive 1%positive 1 0.01 ∅ ∅ ∅ (example_store 0 0)
        = (Ok (l, info), σ') /\
      (1 >= 0 -> commanded = 1 * maximum_traction_force example_train) /\
      (1 < 0 -> commanded = 1 * maximum_braking_force example_train) /\
      info !! "input_force" = Some commanded /\
      info !! "gradient_force" = Some gradient /\
      info !! "curvature_force" = Some curvature /\
      info !! "aero_drag_and_rolling_res" = Some resistance /\
      info !! "speed_overshoot" = Some overshoot /\
      arrays σ' !! l = Some {| shape := [2%nat];
                               data := [0 + 0 * 0.01; vel'] |} /\
      vel' = Rmin (0 + acceleration * 0.01) (100 / 3.6) /\
      vel' + overshoot = 0 + acceleration * 0.01.
Proof.
  split; [reflexivity|]. split; [reflexivity|].
  split; [lra|]. split; [lra|].
  apply (step_explicit_euler (example_store 0 0) 1%positive 1%positive
           example_train 0 0 1 0.01 ∅ ∅ ∅); [reflexivity|reflexivity|lra|lra].
Defined.

(** ** Constraint enforcement *)

(** C2: on every valid call the returned velocity is
    min(unclamped velocity, speed limit), hence at most the limit; the
    diagnostics' speed overshoot is max(0, unclamped - limit), that is the
    difference when the limit is exceeded and 0 otherwise; below the limit
    the velocity is returned as computed (no lower bound), and the returned
    position is the Euler position, unclamped. *)
Theorem step_speed_limit_clamp
    (σ : Store) (self state : loc) (t : ATOSingleTrain)
    (p v action dt : R) (ti jp sp : gmap string R) :
  trains σ !! self = Some t ->
  arrays σ !! state = Some {| shape := [2%nat]; data := [p; v] |} ->
  -1 <= action <= 1 -> 0 < dt ->
  let unclamped := v + Spec.acceleration t v action * dt in
  let limit := 100 / 3.6 in
  exists l info σ' pos' vel' overshoot,
    step self state action dt ti jp sp σ = (Ok (l, info), σ') /\
    arrays σ' !! l = Some {| shape := [2%nat]; data := [pos'; vel'] |} /\
    info !! "max_speed" = Some limit /\
    info !! "speed_overshoot" = Some overshoot /\
    vel' = Rmin unclamped limit /\
    vel' <= limit /\
    overshoot = Rmax 0 (unclamped - limit) /\
    (unclamped > limit -> vel' = limit /\ overshoot = unclamped - limit) /\
    (unclamped <= limit -> vel' = unclamped /\ overshoot = 0) /\
    pos' = p + v * dt.
Proof.
  intros Hself Hstate Haction Hdt unclamped limit.
  eexists _, _, _, _, _, _.
  split; [by eapply step_run|].
  split; [apply lookup_insert_eq|].
  split; [apply step_info_max_speed|].
  split; [apply step_info_overshoot|].
  fold unclamped. change Spec.speedLimit with limit.
  split; [done|].
  split; [apply Rmin_r|].
  split; [done|].
  unfold Rmin, Rmax.
  destruct (Rle_dec unclamped limit), (Rle_dec 0 (unclamped - limit));
    repeat split; intros; lra.
Qed.

Lemma step_speed_limit_clamp_witness :
  trains (example_store 0 30) !! 1%positive = Some example_train /\
  arrays (example_store 0 30) !! 1%positive
    = Some {| shape := [2%nat]; data := [0; 30] |} /\
  -1 <= 1 <= 1 /\ 0 < 0.01 /\
  let unclamped := 30 + Spec.acceleration example_train 30 1 * 0.01 in
  let limit := 100 / 3.6 in
  exists l info σ' pos' vel' overshoot,
    step 1%positive 1%positive 1 0.01 ∅ ∅ ∅ (example_store 0 30)
      = (Ok (l, info), σ') /\
    arrays σ' !! l = Some {| shape := [2%nat]; data := [pos'; vel'] |} /\
    info !! "max_speed" = Some limit /\
    info !! "speed_overshoot" = Some overshoot /\
    vel' = Rmin unclamped limit /\
    vel' <= limit /\
    overshoot = Rmax 0 (unclamped - limit) /\
    (unclamped > limit -> vel' = limit /\ overshoot = unclamped - limit) /\
    (unclamped <= limit -> vel' = unclamped /\ overshoot = 0) /\
    pos' = 0 + 30 * 0.01.
Proof.
  split; [reflexivity|]. split; [reflexivity|].
  split; [lra|]. split; [lra|].
  apply (step_speed_limit_clamp (example_store 0 30) 1%positive 1%positive
           example_train 0 30 1 0.01 ∅ ∅ ∅); [reflexivity|reflexivity|lra|lra].
Defined.

(** Full braking from rest: the returned velocity is negative. *)
Example step_brake_from_rest :
  exists l info σ',
    step 1%positive 1%positive (-1) 0.01 ∅ ∅ ∅ (example_store 0 0)
      = (Ok (l, info), σ') /\
    arrays σ' !! l = Some {| shape := [2%nat]; data := [0; -0.05000005] |}.
Proof.
  eexists _, _, _.
  split.
  { apply (step_run (example_store 0 0) 1%positive 1%positive example_train
             0 0 (-1) 0.01); [reflexivity|reflexivity|lra|lra]. }
  cbn [arrays]. rewrite lookup_insert_eq. do 3 f_equal; [lra|].
  assert (Hacc : Spec.acceleration example_train 0 (-1) = -5.000005).
  { unfold Spec.acceleration, Spec.netForce, Spec.commandedForce,
      Spec.gradientForce, Spec.curvatureForce, Spec.resistanceForce, Spec.g.
    simpl. rewrite sin_0, Rabs_R0.
    destruct (Rle_dec 0 (-1)); lra. }
  rewrite Hacc. unfold Rmin, Spec.speedLimit.
  f_equal. destruct (Rle_dec _ _); lra.
Qed.

(** ** Input validation *)

(** C3: on a state array, a call with the action outside [-1, 1], or with a
    shape other than (2,), or with dt <= 0, raises [AssertionError] and
    returns nothing, the store being left as it was; a call that meets the
    three preconditions never raises [AssertionError]. *)
Theorem step_preconditions
    (σ : Store) (self state : loc) (arr : ndarray)
    (action dt : R) (ti jp sp : gmap string R) :
  arrays σ !! state = Some arr ->
  (~ (-1 <= action <= 1) \/ shape arr <> [2%nat] \/ dt <= 0 ->
   exists msg,
     step self state action dt ti jp sp σ = (Raise (AssertionError msg), σ))
  /\
  (-1 <= action <= 1 /\ shape arr = [2%nat] /\ 0 < dt ->
   forall msg σ',
     step self state action dt ti jp sp σ <> (Raise (AssertionError msg), σ')).
Proof.
  intros Harr. split.
  - intros Hbad.
    destruct (decide (-1 <= action <= 1)) as [Ha|Ha]; cycle 1.
    { eexists. by apply step_action_out_of_range. }
    destruct (decide (shape arr = [2%nat])) as [Hs|Hs]; cycle 1.
    { eexists. by eapply step_bad_shape. }
    destruct Hbad as [?|[?|Hdt]]; [done|done|].
    eexists. eapply step_bad_dt; eauto. lra.
  - intros (Ha & Hs & Hdt) msg σ' Hstep.
    destruct (step_raise_or_ok σ self state action dt ti jp sp)
      as [(e & _ & Hpre & He)|(t & arr' & p & v & Ht & Harr' & _ & H0 & H1 & _)].
    + rewrite He in Hstep. injection Hstep as -> _.
      destruct (Hpre msg eq_refl) as [?|[(arr' & Harr' & ?)|?]]; [done| |done].
      congruence.
    + rewrite Harr in Harr'. injection Harr' as <-.
      by rewrite (step_ok _ _ _ _ _ _ _ _ _ ti jp sp Ht Harr Hs H0 H1 Ha Hdt)
        in Hstep.
Qed.

Lemma step_preconditions_witness :
  arrays (example_store 0 0) !! 1%positive = Some (example_state 0 0) /\
  (~ (-1 <= 1.5 <= 1) \/ shape (example_state 0 0) <> [2%nat] \/ 0.01 <= 0 ->
   exists msg,
     step 1%positive 1%positive 1.5 0.01 ∅ ∅ ∅ (example_store 0 0)
     = (Raise (AssertionError msg), example_store 0 0))
  /\
  (-1 <= 1.5 <= 1 /\ shape (example_state 0 0) = [2%nat] /\ 0 < 0.01 ->
   forall msg σ',
     step 1%positive 1%positive 1.5 0.01 ∅ ∅ ∅ (example_store 0 0)
     <> (Raise (AssertionError msg), σ')).
Proof.
  split; [reflexivity|].
  apply (step_preconditions (example_store 0 0) 1%positive 1%positive
           (example_state 0 0) 1.5 0.01 ∅ ∅ ∅).
  reflexivity.
Defined.

(** [step] with [action = 1.5] on the state of [src/example.py]. *)
Example step_action_1_5 :
  step 1%positive 1%positive 1.5 0.01 ∅ ∅ ∅ (example_store 0 0)
  = (Raise (AssertionError "Action must be in the range [-1, 1]"),
     example_store 0 0).
Proof. apply step_action_out_of_range. lra. Qed.

(** ** The resistance law *)

Lemma resistanceForce_even t v :
  Spec.resistanceForce t (- v) = Spec.resistanceForce t v.
Proof. unfold Spec.resistanceForce. rewrite Rabs_Ropp. lra. Qed.

Lemma aero_drag_and_rolling_res_even σ self v :
  aero_drag_and_rolling_res self (- v) σ = aero_drag_and_rolling_res self v σ.
Proof.
  destruct (trains σ !! self) as [t|] eqn:Ht.
  - rewrite !(aero_drag_and_rolling_res_run _ _ _ _ Ht).
    by rewrite resistanceForce_even.
  - unfold aero_drag_and_rolling_res, bind, getattr. by rewrite Ht.
Qed.

(** C4, as stated, fails: no train with b <> 0 and no velocity v make the
    resistance at v differ from the resistance at -v. *)
Lemma resistance_never_asymmetric :
  ~ (exists σ self t v,
        trains σ !! self = Some t /\ b_davis_formula t <> 0 /\
        aero_drag_and_rolling_res self v σ
        <> aero_drag_and_rolling_res self (- v) σ).
Proof.
  intros (σ & self & t & v & _ & _ & Hne).
  apply Hne. symmetry. apply aero_drag_and_rolling_res_even.
Qed.

(** C4, amended: the resistance law returns a + b * |v| + c * v^2 and is
    even in the velocity for all coefficients, b <> 0 included. *)
Theorem resistance_even
    (σ : Store) (self : loc) (t : ATOSingleTrain) (v : R) :
  trains σ !! self = Some t ->
  aero_drag_and_rolling_res self v σ
  = (Ok (a_davis_formula t + b_davis_formula t * Rabs v
         + c_davis_formula t * v ^ 2), σ) /\
  aero_drag_and_rolling_res self (- v) σ = aero_drag_and_rolling_res self v σ.
Proof.
  intros Ht. split; [|apply aero_drag_and_rolling_res_even].
  rewrite (aero_drag_and_rolling_res_run _ _ _ _ Ht).
  unfold Spec.resistanceForce. do 2 f_equal. simpl. lra.
Qed.

Lemma resistance_even_witness :
  trains (example_store 0 0) !! 1%positive = Some example_train /\
  b_davis_formula example_train <> 0 /\
  aero_drag_and_rolling_res 1%positive 10 (example_store 0 0)
  = (Ok (a_davis_formula example_train + b_davis_formula example_train * Rabs 10
         + c_davis_formula example_train * 10 ^ 2), example_store 0 0) /\
  aero_drag_and_rolling_res 1%positive (- 10) (example_store 0 0)
  = aero_drag_and_rolling_res 1%positive 10 (example_store 0 0).
Proof.
  split; [reflexivity|]. split; [simpl; lra|].
  apply (resistance_even (example_store 0 0) 1%positive example_train 10).
  reflexivity.
Defined.

(** The sample point of the specification: a = 0.5, b = 0.1, c = 0.01 and
    v = 10 give 2.5, at -10 as well. *)
Example resistance_sample_point :
  aero_drag_and_rolling_res 1%positive 10 (example_store 0 0)
  = (Ok 2.5, example_store 0 0) /\
  aero_drag_and_rolling_res 1%positive (- 10) (example_store 0 0)
  = (Ok 2.5, example_store 0 0).
Proof.
  assert (Ht : trains (example_store 0 0) !! 1%positive = Some example_train)
    by reflexivity.
  rewrite !(aero_drag_and_rolling_res_run _ _ _ _ Ht).
  unfold Spec.resistanceForce. simpl.
  rewrite (Rabs_left (-10)), (Rabs_pos_eq 10) by lra.
  split; do 2 f_equal; lra.
Qed.

(** ** The worked example of [src/example.py] *)

Lemma example_acceleration :
  Spec.acceleration example_train 0 1 = 4.999995.
Proof.
  unfold Spec.acceleration, Spec.netForce, Spec.commandedForce,
    Spec.gradientForce, Spec.curvatureForce, Spec.resistanceForce, Spec.g.
  simpl. rewrite sin_0, Rabs_R0.
  destruct (Rle_dec 0 1); lra.
Qed.

Lemma example_first_step σ self state ti jp sp :
  trains σ !! self = Some example_train ->
  arrays σ !! state = Some {| shape := [2%nat]; data := [0; 0] |} ->
  step self state 1 0.01 ti jp sp σ =
    (Ok (fresh (dom (arrays σ)), step_info example_train 0 1 0.01),
     {| trains := trains σ;
        arrays := <[fresh (dom (arrays σ)) :=
                     {| shape := [2%nat]; data := [0; 0.04999995] |}]>
                   (arrays σ) |}).
Proof.
  intros Ht Harr.
  rewrite (step_run σ self state example_train 0 0 1 0.01 ti jp sp Ht Harr)
    by lra.
  rewrite example_acceleration.
  replace (0 + 0 * 0.01) with 0 by lra.
  replace (Rmin (0 + 4.999995 * 0.01) Spec.speedLimit) with 0.04999995; [done|].
  unfold Rmin, Spec.speedLimit. destruct (Rle_dec _ _); lra.
Qed.

(** C5, as stated, fails: the velocity of the returned state is not within
    4 of 4.999995. *)
Lemma example_step_velocity_not_4_999995 :
  ~ (exists l info σ' pos' vel',
        step 1%positive 1%positive 1 0.01 ∅ ∅ ∅ (example_store 0 0)
        = (Ok (l, info), σ') /\
        arrays σ' !! l = Some {| shape := [2%nat]; data := [pos'; vel'] |} /\
        Rabs (vel' - 4.999995) <= 4).
Proof.
  intros (l & info & σ' & pos' & vel' & Hstep & Hl & Hvel).
  rewrite (example_first_step (example_store 0 0) 1%positive 1%positive)
    in Hstep by reflexivity.
  injection Hstep as <- _ <-. simpl in Hl.
  rewrite lookup_insert_eq in Hl. injection Hl as _ <-.
  rewrite Rabs_left in Hvel; lra.
Qed.

(** C5, amended: with mass = 100000, maximum forces 500000, a = 0.5,
    b = 0.1, c = 0.01, state (0, 0), action = 1 and dt = 0.01, the
    commanded force is 500000, the resistance 0.5, the acceleration
    (500000 - 0.5) / 100000 = 4.999995, and [step] returns the state
    (0, 0.04999995) with no overshoot. *)
Theorem example_step_result
    (σ : Store) (self state : loc) (ti jp sp : gmap string R) :
  trains σ !! self = Some example_train ->
  arrays σ !! state = Some {| shape := [2%nat]; data := [0; 0] |} ->
  exists l info σ',
    step self state 1 0.01 ti jp sp σ = (Ok (l, info), σ') /\
    arrays σ' !! l = Some {| shape := [2%nat]; data := [0; 0.04999995] |} /\
    info !! "input_force" = Some 500000 /\
    info !! "aero_drag_and_rolling_res" = Some 0.5 /\
    info !! "gradient_force" = Some 0 /\
    info !! "curvature_force" = Some 0 /\
    info !! "max_speed" = Some (100 / 3.6) /\
    info !! "speed_overshoot" = Some 0 /\
    Spec.acceleration example_train 0 1 = (500000 - 0.5) / 100000 /\
    Spec.acceleration example_train 0 1 = 4.999995 /\
    0 + Spec.acceleration example_train 0 1 * 0.01 = 0.04999995.
Proof.
  intros Ht Harr. eexists _, _, _.
  split; [by apply example_first_step|].
  split; [apply lookup_insert_eq|].
  split.
  { rewrite step_info_input_force. f_equal.
    rewrite commandedForce_traction by lra. simpl. lra. }
  split.
  { rewrite step_info_resistance. f_equal. unfold Spec.resistanceForce.
    simpl. rewrite Rabs_R0. lra. }
  split.
  { rewrite step_info_gradient_force. f_equal. unfold Spec.gradientForce.
    rewrite sin_0. lra. }
  split.
  { rewrite step_info_curvature_force. f_equal. unfold Spec.curvatureForce.
    lra. }
  split; [apply step_info_max_speed|].
  split.
  { rewrite step_info_overshoot, example_acceleration. f_equal.
    unfold Rmax, Spec.speedLimit. destruct (Rle_dec _ _); lra. }
  rewrite example_acceleration. repeat split; lra.
Qed.

Lemma example_step_result_witness :
  trains (example_store 0 0) !! 1%positive = Some example_train /\
  arrays (example_store 0 0) !! 1%positive
    = Some {| shape := [2%nat]; data := [0; 0] |} /\
  exists l info σ',
    step 1%positive 1%positive 1 0.01 ∅ ∅ ∅ (example_store 0 0)
      = (Ok (l, info), σ') /\
    arrays σ' !! l = Some {| shape := [2%nat]; data := [0; 0.04999995] |} /\
    info !! "input_force" = Some 500000 /\
    info !! "aero_drag_and_rolling_res" = Some 0.5 /\
    info !! "gradient_force" = Some 0 /\
    info !! "curvature_force" = Some 0 /\
    info !! "max_speed" = Some (100 / 3.6) /\
    info !! "speed_overshoot" = Some 0 /\
    Spec.acceleration example_train 0 1 = (500000 - 0.5) / 100000 /\
    Spec.acceleration example_train 0 1 = 4.999995 /\
    0 + Spec.acceleration example_train 0 1 * 0.01 = 0.04999995.
Proof.
  split; [reflexivity|]. split; [reflexivity|].
  apply (example_step_result (example_store 0 0) 1%positive 1%positive ∅ ∅ ∅);
    reflexivity.
Defined.

(** ** Coasting *)

Lemma coasting_acceleration t v :
  a_davis_formula t = 0 -> b_davis_formula t = 0 -> c_davis_formula t = 0 ->
  Spec.acceleration t v 0 = 0.
Proof.
  intros Ha Hb Hc.
  unfold Spec.acceleration, Spec.netForce, Spec.commandedForce,
    Spec.gradientForce, Spec.curvatureForce, Spec.resistanceForce.
  rewrite Ha, Hb, Hc, sin_0.
  destruct (Rle_dec 0 0); unfold Rdiv; ring.
Qed.

Lemma coasting_step σ self state t p v dt ti jp sp :
  trains σ !! self = Some t ->
  arrays σ !! state = Some {| shape := [2%nat]; data := [p; v] |} ->
  a_davis_formula t = 0 -> b_davis_formula t = 0 -> c_davis_formula t = 0 ->
  0 < dt ->
  step self state 0 dt ti jp sp σ =
    (Ok (fresh (dom (arrays σ)), step_info t v 0 dt),
     {| trains := trains σ;
        arrays := <[fresh (dom (arrays σ)) :=
                     {| shape := [2%nat];
                        data := [p + v * dt; Rmin v (100 / 3.6)] |}]>
                   (arrays σ) |}).
Proof.
  intros Ht Harr Ha Hb Hc Hdt.
  rewrite (step_run σ self state t p v 0 dt ti jp sp Ht Harr) by lra.
  rewrite coasting_acceleration by done.
  by replace (v + 0 * dt) with v by lra.
Qed.

(** C6, as stated, fails: coasting at 30 m/s, above the speed limit, one
    call of [step] changes the velocity. *)
Lemma coasting_above_limit_changes_velocity :
  exists l σ' pos' vel',
    drive 1%positive 1%positive 0 1 1 (frictionless_store 0 30) = (Ok l, σ') /\
    arrays σ' !! l = Some {| shape := [2%nat]; data := [pos'; vel'] |} /\
    vel' <> 30.
Proof.
  eexists _, _, _, _. split.
  { simpl. erewrite bind_run; [reflexivity|].
    apply (coasting_step (frictionless_store 0 30) 1%positive 1%positive
             frictionless_train 0 30 1); try reflexivity. lra. }
  split; [apply lookup_insert_eq|].
  unfold Rmin. destruct (Rle_dec _ _); lra.
Qed.

Lemma coasting_drive_within_limit n : forall σ self state t p v dt,
  trains σ !! self = Some t ->
  arrays σ !! state = Some {| shape := [2%nat]; data := [p; v] |} ->
  a_davis_formula t = 0 -> b_davis_formula t = 0 -> c_davis_formula t = 0 ->
  0 < dt ->
  v <= 100 / 3.6 ->
  exists l σ',
    drive self state 0 dt n σ = (Ok l, σ') /\
    arrays σ' !! l
    = Some {| shape := [2%nat]; data := [p + INR n * (v * dt); v] |}.
Proof.
  induction n as [|n IH]; intros σ self state t p v dt Ht Harr Ha Hb Hc Hdt Hv.
  - exists state, σ. split; [done|].
    rewrite Harr. do 3 f_equal. simpl. lra.
  - cbn [drive].
    rewrite (bind_run _ _ _ _ _
               (coasting_step σ self state t p v dt ∅ ∅ ∅ Ht Harr Ha Hb Hc Hdt)).
    rewrite Rmin_left by done. cbn [fst].
    set (σ1 := {| trains := _; arrays := _ |}).
    destruct (IH σ1 self (fresh (dom (arrays σ))) t (p + v * dt) v dt)
      as (l & σ' & Hrun & Hl); try done; [apply lookup_insert_eq|].
    exists l, σ'. split; [done|].
    rewrite Hl, S_INR. do 3 f_equal. lra.
Qed.

(** C6, amended: for action = 0, zero resistance coefficients (and the
    placeholder zero gradient and curvature), a velocity that does not
    exceed the speed limit of 100/3.6 m/s is unchanged after any number
    [n] of [step] calls, and the position advances by exactly
    velocity * dt on each of them.  A velocity above the limit is clamped
    to the limit by the first call and stays there: the position advances
    by v * dt on the first call and by 100/3.6 * dt on each later one.  The
    mass is positive, as the data model requires. *)
Theorem coasting_keeps_velocity
    (σ : Store) (self state : loc) (t : ATOSingleTrain)
    (p v dt : R) (n : nat) :
  trains σ !! self = Some t ->
  arrays σ !! state = Some {| shape := [2%nat]; data := [p; v] |} ->
  a_davis_formula t = 0 -> b_davis_formula t = 0 -> c_davis_formula t = 0 ->
  0 < train_mass t ->
  0 < dt ->
  exists l σ' pos vel,
    drive self state 0 dt n σ = (Ok l, σ') /\
    arrays σ' !! l = Some {| shape := [2%nat]; data := [pos; vel] |} /\
    (v <= 100 / 3.6 -> pos = p + INR n * (v * dt) /\ vel = v) /\
    (100 / 3.6 < v -> (1 <= n)%nat ->
     pos = p + v * dt + INR (n - 1) * (100 / 3.6 * dt) /\ vel = 100 / 3.6).
Proof.
  intros Ht Harr Ha Hb Hc Hmass Hdt.
  destruct (Rle_dec v (100 / 3.6)) as [Hv|Hv].
  - destruct (coasting_drive_within_limit n σ self state t p v dt)
      as (l & σ' & Hrun & Hl); try done.
    exists l, σ', (p + INR n * (v * dt)), v.
    repeat split; try done; lra.
  - apply Rnot_le_lt in Hv. destruct n as [|n].
    + exists state, σ, p, v. repeat split; try done; try lra; lia.
    + cbn [drive].
      rewrite (bind_run _ _ _ _ _
                 (coasting_step σ self state t p v dt ∅ ∅ ∅
                    Ht Harr Ha Hb Hc Hdt)).
      rewrite Rmin_right by lra. cbn [fst].
      set (σ1 := {| trains := _; arrays := _ |}).
      assert (Hl1 : arrays σ1 !! fresh (dom (arrays σ))
                    = Some {| shape := [2%nat];
                              data := [p + v * dt; 100 / 3.6] |})
        by apply lookup_insert_eq.
      assert (Hlim : 100 / 3.6 <= 100 / 3.6) by lra.
      destruct (coasting_drive_within_limit n σ1 self
                  (fresh (dom (arrays σ))) t (p + v * dt) (100 / 3.6) dt
                  Ht Hl1 Ha Hb Hc Hdt Hlim)
        as (l & σ' & Hrun & Hl).
      exists l, σ', (p + v * dt + INR n * (100 / 3.6 * dt)), (100 / 3.6).
      split; [done|]. split; [done|].
      split; [lra|]. intros _ _.
      replace (S n - 1)%nat with n by lia. done.
Qed.

Lemma coasting_keeps_velocity_witness :
  trains (frictionless_store 0 30) !! 1%positive = Some frictionless_train /\
  arrays (frictionless_store 0 30) !! 1%positive
    = Some {| shape := [2%nat]; data := [0; 30] |} /\
  0 < train_mass frictionless_train /\ 0 < 0.01 /\
  exists l σ' pos vel,
    drive 1%positive 1%positive 0 0.01 100 (frictionless_store 0 30)
      = (Ok l, σ') /\
    arrays σ' !! l = Some {| shape := [2%nat]; data := [pos; vel] |} /\
    (30 <= 100 / 3.6 -> pos = 0 + INR 100 * (30 * 0.01) /\ vel = 30) /\
    (100 / 3.6 < 30 -> (1 <= 100)%nat ->
     pos = 0 + 30 * 0.01 + INR (100 - 1) * (100 / 3.6 * 0.01)
     /\ vel = 100 / 3.6).
Proof.
  split; [reflexivity|]. split; [reflexivity|].
  split; [simpl; lra|]. split; [lra|].
  apply (coasting_keeps_velocity (frictionless_store 0 30) 1%positive
           1%positive frictionless_train 0 30 0.01 100);
    [reflexivity|reflexivity|reflexivity|reflexivity|reflexivity
    |simpl; lra|lra].
Defined.

(** ** Determinism and the placeholder track data *)

(** C7: [step] does not depend on [track_info], [journey_profile] and
    [segment_profile]: with the same store and arguments any two contexts
    give the same result.  Two valid calls on trains with the same constants
    and on states with the same contents, in whatever stores and with
    whatever contexts, return the same diagnostics and equal new states;
    the diagnostics report the placeholders: gradient 0, curvature factor
    0, curvature radius 1 and a speed limit of 100 km/h = 100/3.6 m/s. *)
Theorem step_deterministic_context_free
    (σ1 σ2 : Store) (self1 self2 state1 state2 : loc) (t : ATOSingleTrain)
    (p v action dt : R) (ti jp sp ti' jp' sp' : gmap string R) :
  trains σ1 !! self1 = Some t ->
  trains σ2 !! self2 = Some t ->
  arrays σ1 !! state1 = Some {| shape := [2%nat]; data := [p; v] |} ->
  arrays σ2 !! state2 = Some {| shape := [2%nat]; data := [p; v] |} ->
  -1 <= action <= 1 -> 0 < dt ->
  step self1 state1 action dt ti jp sp σ1
  = step self1 state1 action dt ti' jp' sp' σ1
  /\
  exists l1 l2 info σ1' σ2' new_state,
    step self1 state1 action dt ti jp sp σ1 = (Ok (l1, info), σ1') /\
    step self2 state2 action dt ti' jp' sp' σ2 = (Ok (l2, info), σ2') /\
    arrays σ1' !! l1 = Some new_state /\
    arrays σ2' !! l2 = Some new_state /\
    info !! "gradient" = Some 0 /\
    info !! "curvature" = Some 0 /\
    info !! "curvature_radius" = Some 1 /\
    info !! "max_speed" = Some (100 / 3.6).
Proof.
  intros Ht1 Ht2 Hs1 Hs2 Ha Hdt. split; [reflexivity|].
  eexists _, _, _, _, _, _.
  split; [by eapply step_run|].
  split; [by eapply step_run|].
  split; [apply lookup_insert_eq|].
  split; [apply lookup_insert_eq|].
  split; [apply step_info_gradient|].
  split; [apply step_info_curvature|].
  split; [apply step_info_curvature_radius|].
  apply step_info_max_speed.
Qed.

Lemma step_deterministic_context_free_witness :
  trains (example_store 0 0) !! 1%positive = Some example_train /\
  trains (example_store 5 7) !! 1%positive = Some example_train /\
  -1 <= 1 <= 1 /\ 0 < 0.01 /\
  (step 1%positive 1%positive 1 0.01 ∅ ∅ ∅ (example_store 0 0)
   = step 1%positive 1%positive 1 0.01 {["gradient" := 0.02]}
       {["max_speed" := 10]} {["stop" := 1200]} (example_store 0 0)
   /\
   exists l1 l2 info σ1' σ2' new_state,
     step 1%positive 1%positive 1 0.01 ∅ ∅ ∅ (example_store 0 0)
       = (Ok (l1, info), σ1') /\
     step 1%positive 2%positive 1 0.01 {["gradient" := 0.02]}
       {["max_speed" := 10]} {["stop" := 1200]}
       {| trains := trains (example_store 5 7);
          arrays := <[2%positive := example_state 0 0]>
                      (arrays (example_store 5 7)) |}
       = (Ok (l2, info), σ2') /\
     arrays σ1' !! l1 = Some new_state /\
     arrays σ2' !! l2 = Some new_state /\
     info !! "gradient" = Some 0 /\
     info !! "curvature" = Some 0 /\
     info !! "curvature_radius" = Some 1 /\
     info !! "max_speed" = Some (100 / 3.6)).
Proof.
  split; [reflexivity|]. split; [reflexivity|].
  split; [lra|]. split; [lra|].
  apply (step_deterministic_context_free
           (example_store 0 0)
           {| trains := trains (example_store 5 7);
              arrays := <[2%positive := example_state 0 0]>
                          (arrays (example_store 5 7)) |}
           1%positive 1%positive 1%positive 2%positive
           example_train 0 0 1 0.01 ∅ ∅ ∅ {["gradient" := 0.02]}
           {["max_speed" := 10]} {["stop" := 1200]});
    [reflexivity|reflexivity|reflexivity|reflexivity|lra|lra].
Defined.

(** ** The gradient law *)

(** C8: [gradient_force] returns mass * 9.81 * sin(angle) for every angle:
    0 at angle 0 and mass * 9.81 at pi/2; for a positive mass the force
    has the sign of sin(angle), so an uphill angle (between 0 and pi) gives
    a positive force.  [step] subtracts the gradient force (at its
    placeholder angle) from the commanded force: with the commanded force
    action * maximum_traction_force (action >= 0) or
    action * maximum_braking_force (action < 0), the curvature force
    mass * 9.81 * 0 / 1 and the resistance a + b * |v| + c * v^2, the
    returned velocity is the clamp of
    v + (commanded - gradient - curvature - resistance) / mass * dt. *)
Theorem gradient_force_law
    (σ : Store) (self state : loc) (t : ATOSingleTrain)
    (p v action dt : R) (ti jp sp : gmap string R) :
  trains σ !! self = Some t ->
  arrays σ !! state = Some {| shape := [2%nat]; data := [p; v] |} ->
  -1 <= action <= 1 -> 0 < dt ->
  (forall angle,
      gradient_force self angle σ
      = (Ok (train_mass t * 9.81 * sin angle), σ)) /\
  gradient_force self 0 σ = (Ok 0, σ) /\
  gradient_force self (PI / 2) σ = (Ok (train_mass t * 9.81), σ) /\
  (forall angle,
      0 < train_mass t ->
      exists force,
        gradient_force self angle σ = (Ok force, σ) /\
        (0 < force <-> 0 < sin angle) /\
        (0 < angle < PI -> 0 < force)) /\
  exists l info σ' commanded gradient curvature resistance vel' overshoot,
    step self state action dt ti jp sp σ = (Ok (l, info), σ') /\
    info !! "input_force" = Some commanded /\
    info !! "gradient_force" = Some gradient /\
    info !! "curvature_force" = Some curvature /\
    info !! "aero_drag_and_rolling_res" = Some resistance /\
    info !! "speed_overshoot" = Some overshoot /\
    (action >= 0 -> commanded = action * maximum_traction_force t) /\
    (action < 0 -> commanded = action * maximum_braking_force t) /\
    gradient_force self 0 σ = (Ok gradient, σ) /\
    curvature = train_mass t * 9.81 * 0 / 1 /\
    resistance = a_davis_formula t + b_davis_formula t * Rabs v
                 + c_davis_formula t * v ^ 2 /\
    arrays σ' !! l = Some {| shape := [2%nat];
                             data := [p + v * dt; vel'] |} /\
    vel' = Rmin (v + (commanded - gradient - curvature - resistance)
                     / train_mass t * dt) (100 / 3.6) /\
    overshoot = Rmax 0 (v + (commanded - gradient - curvature - resistance)
                            / train_mass t * dt - 100 / 3.6) /\
    vel' + overshoot
    = v + (commanded - gradient - curvature - resistance) / train_mass t * dt.
Proof.
  intros Ht Hs Ha Hdt.
  split; [intros; by apply gradient_force_run|].
  split.
  { rewrite (gradient_force_run _ _ _ _ Ht). unfold Spec.gradientForce.
    rewrite sin_0. do 2 f_equal. lra. }
  split.
  { rewrite (gradient_force_run _ _ _ _ Ht).
    unfold Spec.gradientForce, Spec.g.
    rewrite sin_PI2. do 2 f_equal. lra. }
  split.
  { intros angle Hmass. eexists.
    split; [by apply gradient_force_run|].
    unfold Spec.gradientForce, Spec.g.
    split; [split; intros Hpos; nra|].
    intros [Hlo Hhi]. pose proof (sin_gt_0 angle Hlo Hhi). nra. }
  eexists _, _, _, _, _, _, _, _, _.
  split; [by eapply step_run|].
  split; [apply step_info_input_force|].
  split; [apply step_info_gradient_force|].
  split; [apply step_info_curvature_force|].
  split; [apply step_info_resistance|].
  split; [apply step_info_overshoot|].
  split; [intros H; apply commandedForce_traction; lra|].
  split; [apply commandedForce_braking|].
  split; [by apply gradient_force_run|].
  split; [reflexivity|].
  split; [unfold Spec.resistanceForce; simpl; lra|].
  split; [apply lookup_insert_eq|].
  change ((Spec.commandedForce t action - Spec.gradientForce t 0
           - Spec.curvatureForce t 0 1 - Spec.resistanceForce t v)
          / train_mass t)
    with (Spec.acceleration t v action).
  change (100 / 3.6) with Spec.speedLimit.
  split; [reflexivity|]. split; [reflexivity|].
  unfold Rmin, Rmax. destruct (Rle_dec _ _), (Rle_dec _ _); lra.
Qed.

Lemma gradient_force_law_witness :
  trains (example_store 0 0) !! 1%positive = Some example_train /\
  arrays (example_store 0 0) !! 1%positive
    = Some {| shape := [2%nat]; data := [0; 0] |} /\
  -1 <= 1 <= 1 /\ 0 < 0.01 /\
  (forall angle,
      gradient_force 1%positive angle (example_store 0 0)
      = (Ok (train_mass example_train * 9.81 * sin angle), example_store 0 0))
  /\
  gradient_force 1%positive 0 (example_store 0 0) = (Ok 0, example_store 0 0)
  /\
  gradient_force 1%positive (PI / 2) (example_store 0 0)
  = (Ok (train_mass example_train * 9.81), example_store 0 0) /\
  (forall angle,
      0 < train_mass example_train ->
      exists force,
        gradient_force 1%positive angle (example_store 0 0)
        = (Ok force, example_store 0 0) /\
        (0 < force <-> 0 < sin angle) /\
        (0 < angle < PI -> 0 < force)) /\
  exists l info σ' commanded gradient curvature resistance vel' overshoot,
    step 1%positive 1%positive 1 0.01 ∅ ∅ ∅ (example_store 0 0)
      = (Ok (l, info), σ') /\
    info !! "input_force" = Some commanded /\
    info !! "gradient_force" = Some gradient /\
    info !! "curvature_force" = Some curvature /\
    info !! "aero_drag_and_rolling_res" = Some resistance /\
    info !! "speed_overshoot" = Some overshoot /\
    (1 >= 0 -> commanded = 1 * maximum_traction_force example_train) /\
    (1 < 0 -> commanded = 1 * maximum_braking_force example_train) /\
    gradient_force 1%positive 0 (example_store 0 0)
      = (Ok gradient, example_store 0 0) /\
    curvature = train_mass example_train * 9.81 * 0 / 1 /\
    resistance = a_davis_formula example_train
                 + b_davis_formula example_train * Rabs 0
                 + c_davis_formula example_train * 0 ^ 2 /\
    arrays σ' !! l = Some {| shape := [2%nat];
                             data := [0 + 0 * 0.01; vel'] |} /\
    vel' = Rmin (0 + (commanded - gradient - curvature - resistance)
                     / train_mass example_train * 0.01) (100 / 3.6) /\
    overshoot = Rmax 0 (0 + (commanded - gradient - curvature - resistance)
                            / train_mass example_train * 0.01 - 100 / 3.6) /\
    vel' + overshoot
    = 0 + (commanded - gradient - curvature - resistance)
          / train_mass example_train * 0.01.
Proof.
  split; [reflexivity|]. split; [reflexivity|].
  split; [lra|]. split; [lra|].
  apply (gradient_force_law (example_store 0 0) 1%positive 1%positive
           example_train 0 0 1 0.01 ∅ ∅ ∅); [reflexivity|reflexivity|lra|lra].
Defined.

(** ** Frame: what a call leaves untouched *)

(** C9: whatever its arguments, [step] leaves the train objects (hence the
    six stored constants) and every array of the store as they were, the
    caller's state array included; when it returns, the returned state is
    a new array object, absent from the store before the call, and the
    only addition to it; when it raises, the store is unchanged.  The three
    force-law methods leave the store unchanged. *)
Theorem step_frame
    (σ : Store) (self state : loc) (action dt : R)
    (ti jp sp : gmap string R) :
  let res := step self state action dt ti jp sp σ in
  trains res.2 = trains σ /\
  arrays res.2 !! state = arrays σ !! state /\
  (forall l arr, arrays σ !! l = Some arr -> arrays res.2 !! l = Some arr) /\
  (forall l info,
      res.1 = Ok (l, info) ->
      arrays σ !! l = None /\ l <> state /\
      exists new_state, arrays res.2 = <[l := new_state]> (arrays σ)) /\
  (forall e, res.1 = Raise e -> res.2 = σ) /\
  (forall velocity, (aero_drag_and_rolling_res self velocity σ).2 = σ) /\
  (forall gradient, (gradient_force self gradient σ).2 = σ) /\
  (forall k_curvature curvature_radius,
      (curvature_force self k_curvature curvature_radius σ).2 = σ).
Proof.
  intros res.
  assert (Hlaws :
    (forall velocity, (aero_drag_and_rolling_res self velocity σ).2 = σ) /\
    (forall gradient, (gradient_force self gradient σ).2 = σ) /\
    (forall k_curvature curvature_radius,
        (curvature_force self k_curvature curvature_radius σ).2 = σ)).
  { destruct (trains σ !! self) as [t|] eqn:Ht.
    - split; [|split]; intros.
      + by rewrite (aero_drag_and_rolling_res_run _ _ _ _ Ht).
      + by rewrite (gradient_force_run _ _ _ _ Ht).
      + destruct (decide (curvature_radius = 0)) as [->|Hr].
        * by rewrite (curvature_force_zero_radius _ _ _ _ Ht).
        * by rewrite (curvature_force_run _ _ _ _ _ Ht Hr).
    - unfold aero_drag_and_rolling_res, gradient_force, curvature_force.
      split; [|split]; intros; by rewrite (bind_getattr_none _ _ _ _ Ht). }
  assert (Hfresh : arrays σ !! fresh (dom (arrays σ)) = None).
  { apply not_elem_of_dom, is_fresh. }
  destruct (step_raise_or_ok σ self state action dt ti jp sp)
    as [(e & _ & _ & He)|(t & arr & p & v & Ht & Harr & Hs & H0 & H1 & Ha & Hdt)].
  - subst res. rewrite He. simpl.
    repeat split; try done; apply Hlaws.
  - subst res.
    rewrite (step_ok _ _ _ _ _ _ _ _ _ ti jp sp Ht Harr Hs H0 H1 Ha Hdt).
    simpl.
    assert (Hne : fresh (dom (arrays σ)) <> state) by congruence.
    split; [done|].
    split; [by rewrite lookup_insert_ne|].
    split.
    { intros l a Hl. rewrite lookup_insert_ne; [done|congruence]. }
    split.
    { intros l info [= <- _]. eauto. }
    split; [done|]. apply Hlaws.
Qed.

(** ** Totality *)

(** C10: on a train object, a well-formed state array of shape (2,), an
    action in [-1, 1] and dt > 0, [step] returns.  The curvature law raises
    [ZeroDivisionError] on a zero radius, but [step] calls it with radius 1
    and never raises that exception, whatever its arguments. *)
Theorem step_total
    (σ : Store) (self state : loc) (t : ATOSingleTrain) (arr : ndarray)
    (action dt : R) (ti jp sp : gmap string R) :
  trains σ !! self = Some t ->
  arrays σ !! state = Some arr ->
  shape arr = [2%nat] -> ndarray_wf arr ->
  -1 <= action <= 1 -> 0 < dt ->
  (exists l info σ', step self state action dt ti jp sp σ = (Ok (l, info), σ'))
  /\
  (forall k_curvature,
      curvature_force self k_curvature 0 σ = (Raise ZeroDivisionError, σ)) /\
  curvature_force self 0 1 σ = (Ok (train_mass t * 9.81 * 0 / 1), σ) /\
  (forall σ0 self0 state0 action0 dt0 ti0 jp0 sp0 σ0',
      step self0 state0 action0 dt0 ti0 jp0 sp0 σ0
      <> (Raise ZeroDivisionError, σ0')).
Proof.
  intros Ht Harr Hs Hwf Ha Hdt.
  split.
  { unfold ndarray_wf in Hwf. rewrite Hs in Hwf. simpl in Hwf.
    destruct (data arr) as [|p [|v [|? ?]]] eqn:Hdata; try done.
    eexists _, _, _. eapply step_ok; eauto; by rewrite Hdata. }
  split; [intros; by eapply curvature_force_zero_radius|].
  split; [by apply curvature_force_run, R1_neq_R0|].
  intros σ0 self0 state0 action0 dt0 ti0 jp0 sp0 σ0' Hstep.
  destruct (step_raise_or_ok σ0 self0 state0 action0 dt0 ti0 jp0 sp0)
    as [(e & Hne & _ & He)
       |(t' & arr' & p & v & Ht' & Harr' & Hs' & H0 & H1 & Ha' & Hdt')].
  - rewrite He in Hstep. by injection Hstep as -> _.
  - by rewrite (step_ok _ _ _ _ _ _ _ _ _ ti0 jp0 sp0
                  Ht' Harr' Hs' H0 H1 Ha' Hdt') in Hstep.
Qed.

Lemma step_total_witness :
  trains (example_store 0 0) !! 1%positive = Some example_train /\
  arrays (example_store 0 0) !! 1%positive = Some (example_state 0 0) /\
  shape (example_state 0 0) = [2%nat] /\ ndarray_wf (example_state 0 0) /\
  -1 <= 1 <= 1 /\ 0 < 0.01 /\
  (exists l info σ',
      step 1%positive 1%positive 1 0.01 ∅ ∅ ∅ (example_store 0 0)
      = (Ok (l, info), σ')) /\
  (forall k_curvature,
      curvature_force 1%positive k_curvature 0 (example_store 0 0)
      = (Raise ZeroDivisionError, example_store 0 0)) /\
  curvature_force 1%positive 0 1 (example_store 0 0)
  = (Ok (train_mass example_train * 9.81 * 0 / 1), example_store 0 0) /\
  (forall σ0 self0 state0 action0 dt0 ti0 jp0 sp0 σ0',
      step self0 state0 action0 dt0 ti0 jp0 sp0 σ0
      <> (Raise ZeroDivisionError, σ0')).
Proof.
  split; [reflexivity|]. split; [reflexivity|].
  split; [reflexivity|]. split; [reflexivity|].
  split; [lra|]. split; [lra|].
  apply (step_total (example_store 0 0) 1%positive 1%positive
           example_train (example_state 0 0) 1 0.01 ∅ ∅ ∅);
    [reflexivity|reflexivity|reflexivity|reflexivity|lra|lra].
Defined.

(** * Further properties of the code *)

(** ** The constructor *)

(** X1: [__init__] creates a train object that was not in the store and
    holds exactly the six constants passed to it, each under its own
    attribute; every other object is left as it was.  The three force laws
    then compute with a, b, c and the mass, and a valid [step] on the new
    object commands action * max_traction for action >= 0 and
    action * max_braking for action < 0. *)
Theorem init_stores_constants
    (σ : Store) (a b c mass max_traction max_braking : R) :
  let res := init a b c mass max_traction max_braking σ in
  exists self,
    res.1 = Ok self /\
    trains σ !! self = None /\
    trains res.2 !! self
    = Some {| a_davis_formula := a;
              b_davis_formula := b;
              c_davis_formula := c;
              train_mass := mass;
              maximum_traction_force := max_traction;
              maximum_braking_force := max_braking |} /\
    (forall l t, trains σ !! l = Some t -> trains res.2 !! l = Some t) /\
    arrays res.2 = arrays σ /\
    (forall v, aero_drag_and_rolling_res self v res.2
               = (Ok (a + b * Rabs v + c * v ^ 2), res.2)) /\
    (forall angle, gradient_force self angle res.2
                   = (Ok (mass * 9.81 * sin angle), res.2)) /\
    (forall k r, r <> 0 ->
                 curvature_force self k r res.2
                 = (Ok (mass * 9.81 * k / r), res.2)) /\
    (forall state p v action dt ti jp sp,
        arrays σ !! state = Some {| shape := [2%nat]; data := [p; v] |} ->
        -1 <= action <= 1 -> 0 < dt ->
        exists l info σ',
          step self state action dt ti jp sp res.2 = (Ok (l, info), σ') /\
          (action >= 0 ->
           info !! "input_force" = Some (action * max_traction)) /\
          (action < 0 ->
           info !! "input_force" = Some (action * max_braking))).
Proof.
  intros res. exists (fresh (dom (trains σ))).
  assert (Hfresh : trains σ !! fresh (dom (trains σ)) = None)
    by apply not_elem_of_dom, is_fresh.
  assert (Hnew : trains res.2 !! fresh (dom (trains σ))
                 = Some {| a_davis_formula := a; b_davis_formula := b;
                           c_davis_formula := c; train_mass := mass;
                           maximum_traction_force := max_traction;
                           maximum_braking_force := max_braking |})
    by apply lookup_insert_eq.
  split; [done|]. split; [done|]. split; [done|].
  split.
  { intros l t Hl. subst res. cbn. rewrite lookup_insert_ne; [done|congruence]. }
  split; [done|].
  split.
  { intros v. rewrite (aero_drag_and_rolling_res_run _ _ _ _ Hnew).
    unfold Spec.resistanceForce. do 2 f_equal. simpl. lra. }
  split; [intros; by rewrite (gradient_force_run _ _ _ _ Hnew)|].
  split.
  { intros k r Hr. by rewrite (curvature_force_run _ _ _ _ _ Hnew Hr). }
  intros state p v action dt ti jp sp Hs Ha Hdt.
  eexists _, _, _.
  split.
  { apply (step_run res.2 _ state _ p v action dt ti jp sp Hnew); done. }
  split; intros Hact; rewrite step_info_input_force; f_equal.
  - rewrite commandedForce_traction by lra. done.
  - rewrite commandedForce_braking by done. done.
Qed.

(** ** Shape of the force laws *)

Lemma sqr_Rabs v : v * v = Rabs v * Rabs v.
Proof. rewrite <- Rabs_mult. rewrite Rabs_pos_eq; nra. Qed.

Lemma resistanceForce_mono t v1 v2 :
  0 <= b_davis_formula t -> 0 <= c_davis_formula t ->
  Rabs v1 <= Rabs v2 ->
  a_davis_formula t <= Spec.resistanceForce t v1 <= Spec.resistanceForce t v2.
Proof.
  intros Hb Hc Hv. unfold Spec.resistanceForce.
  rewrite (sqr_Rabs v1), (sqr_Rabs v2).
  pose proof (Rabs_pos v1) as Hx.
  set (x := Rabs v1) in *. set (y := Rabs v2) in *.
  assert (Hsq : x * x <= y * y) by nra.
  assert (0 <= b_davis_formula t * x) by nra.
  assert (0 <= c_davis_formula t * (x * x)) by nra.
  assert (b_davis_formula t * x <= b_davis_formula t * y) by nra.
  assert (c_davis_formula t * (x * x) <= c_davis_formula t * (y * y)) by nra.
  lra.
Qed.

(** X2: with non-negative coefficients b and c the resistance grows with the
    speed |v|, whatever the direction of travel, and is never below its
    value a at standstill. *)
Theorem resistance_monotone_in_speed
    (σ : Store) (self : loc) (t : ATOSingleTrain) (v1 v2 : R) :
  trains σ !! self = Some t ->
  0 <= b_davis_formula t -> 0 <= c_davis_formula t ->
  Rabs v1 <= Rabs v2 ->
  exists r0 r1 r2,
    aero_drag_and_rolling_res self 0 σ = (Ok r0, σ) /\
    aero_drag_and_rolling_res self v1 σ = (Ok r1, σ) /\
    aero_drag_and_rolling_res self v2 σ = (Ok r2, σ) /\
    r0 = a_davis_formula t /\ r0 <= r1 <= r2.
Proof.
  intros Ht Hb Hc Hv. eexists _, _, _.
  rewrite !(aero_drag_and_rolling_res_run _ _ _ _ Ht).
  do 3 (split; [reflexivity|]).
  split.
  - unfold Spec.resistanceForce. rewrite Rabs_R0. lra.
  - replace (Spec.resistanceForce t 0) with (a_davis_formula t)
      by (unfold Spec.resistanceForce; rewrite Rabs_R0; lra).
    by apply resistanceForce_mono.
Qed.

Lemma resistance_monotone_in_speed_witness :
  trains (example_store 0 0) !! 1%positive = Some example_train /\
  Rabs (-3) <= Rabs 10 /\
  exists r0 r1 r2,
    aero_drag_and_rolling_res 1%positive 0 (example_store 0 0)
      = (Ok r0, example_store 0 0) /\
    aero_drag_and_rolling_res 1%positive (-3) (example_store 0 0)
      = (Ok r1, example_store 0 0) /\
    aero_drag_and_rolling_res 1%positive 10 (example_store 0 0)
      = (Ok r2, example_store 0 0) /\
    r0 = a_davis_formula example_train /\ r0 <= r1 <= r2.
Proof.
  assert (H : Rabs (-3) <= Rabs 10).
  { rewrite Rabs_left, Rabs_pos_eq; lra. }
  split; [reflexivity|]. split; [exact H|].
  apply (resistance_monotone_in_speed (example_store 0 0) 1%positive
           example_train (-3) 10); [reflexivity|simpl; lra|simpl; lra|exact H].
Defined.

(** X3: the gradient force is odd in the angle (a descent of the same
    steepness gives the opposite force), has period 2 * pi, and its
    magnitude never exceeds |mass| * 9.81. *)
Theorem gradient_force_odd_bounded
    (σ : Store) (self : loc) (t : ATOSingleTrain) (angle : R) :
  trains σ !! self = Some t ->
  exists f f_neg f_turn,
    gradient_force self angle σ = (Ok f, σ) /\
    gradient_force self (- angle) σ = (Ok f_neg, σ) /\
    gradient_force self (angle + 2 * PI) σ = (Ok f_turn, σ) /\
    f_neg = - f /\ f_turn = f /\
    Rabs f <= Rabs (train_mass t) * 9.81.
Proof.
  intros Ht. eexists _, _, _.
  rewrite !(gradient_force_run _ _ _ _ Ht).
  do 3 (split; [reflexivity|]).
  unfold Spec.gradientForce, Spec.g.
  split; [rewrite sin_neg; lra|].
  split.
  { replace (angle + 2 * PI) with (angle + 2 * INR 1 * PI) by (simpl; lra).
    by rewrite sin_period. }
  rewrite !Rabs_mult, (Rabs_pos_eq 9.81) by lra.
  pose proof (Rabs_pos (train_mass t)).
  assert (Rabs (sin angle) <= 1).
  { apply Rabs_le. pose proof (SIN_bound angle). lra. }
  nra.
Qed.

Lemma gradient_force_odd_bounded_witness :
  trains (example_store 0 0) !! 1%positive = Some example_train /\
  exists f f_neg f_turn,
    gradient_force 1%positive 0.02 (example_store 0 0)
      = (Ok f, example_store 0 0) /\
    gradient_force 1%positive (- (0.02)) (example_store 0 0)
      = (Ok f_neg, example_store 0 0) /\
    gradient_force 1%positive (0.02 + 2 * PI) (example_store 0 0)
      = (Ok f_turn, example_store 0 0) /\
    f_neg = - f /\ f_turn = f /\
    Rabs f <= Rabs (train_mass example_train) * 9.81.
Proof.
  split; [reflexivity|].
  apply (gradient_force_odd_bounded (example_store 0 0) 1%positive
           example_train 0.02).
  reflexivity.
Defined.

(** X4: on a train object the curvature law raises [ZeroDivisionError]
    exactly when the radius is 0; otherwise it returns a force that,
    multiplied back by the radius, is mass * 9.81 * factor, so the force is
    0 for a zero factor and halves when the radius doubles. *)
Theorem curvature_force_radius
    (σ : Store) (self : loc) (t : ATOSingleTrain) (k r : R) :
  trains σ !! self = Some t ->
  (curvature_force self k r σ = (Raise ZeroDivisionError, σ) <-> r = 0) /\
  (r <> 0 ->
   exists f f0 f2,
     curvature_force self k r σ = (Ok f, σ) /\
     curvature_force self 0 r σ = (Ok f0, σ) /\
     curvature_force self k (2 * r) σ = (Ok f2, σ) /\
     f * r = train_mass t * 9.81 * k /\ f0 = 0 /\ f2 = f / 2).
Proof.
  intros Ht. split.
  - split.
    + intros Hraise. destruct (decide (r = 0)) as [|Hr]; [done|].
      by rewrite (curvature_force_run _ _ _ _ _ Ht Hr) in Hraise.
    + intros ->. by eapply curvature_force_zero_radius.
  - intros Hr. eexists _, _, _.
    rewrite !(curvature_force_run _ _ _ _ _ Ht) by lra.
    do 3 (split; [reflexivity|]).
    unfold Spec.curvatureForce, Spec.g. repeat split; field; lra.
Qed.

Lemma curvature_force_radius_witness :
  trains (example_store 0 0) !! 1%positive = Some example_train /\
  (curvature_force 1%positive 0.5 300 (example_store 0 0)
   = (Raise ZeroDivisionError, example_store 0 0) <-> 300 = 0) /\
  (300 <> 0 ->
   exists f f0 f2,
     curvature_force 1%positive 0.5 300 (example_store 0 0)
       = (Ok f, example_store 0 0) /\
     curvature_force 1%positive 0 300 (example_store 0 0)
       = (Ok f0, example_store 0 0) /\
     curvature_force 1%positive 0.5 (2 * 300) (example_store 0 0)
       = (Ok f2, example_store 0 0) /\
     f * 300 = train_mass example_train * 9.81 * 0.5 /\ f0 = 0 /\ f2 = f / 2).
Proof.
  split; [reflexivity|].
  apply (curvature_force_radius (example_store 0 0) 1%positive
           example_train 0.5 300).
  reflexivity.
Defined.

(** ** More on [step] *)

Lemma placeholder_forces t :
  Spec.gradientForce t 0 = 0 /\ Spec.curvatureForce t 0 1 = 0.
Proof.
  unfold Spec.gradientForce, Spec.curvatureForce. rewrite sin_0. split; lra.
Qed.

Lemma acceleration_balance t v action :
  Spec.acceleration t v action
  = (Spec.commandedForce t action - Spec.resistanceForce t v) / train_mass t.
Proof.
  unfold Spec.acceleration, Spec.netForce.
  destruct (placeholder_forces t) as [-> ->]. f_equal. lra.
Qed.

Lemma div_mass_mono (x y m : R) : 0 < m -> x <= y -> x / m <= y / m.
Proof.
  intros Hm Hxy. unfold Rdiv. apply Rmult_le_compat_r; [|done].
  left. by apply Rinv_0_lt_compat.
Qed.

Lemma div_mass_mono_strict (x y m : R) : 0 < m -> x < y -> x / m < y / m.
Proof.
  intros Hm Hxy. unfold Rdiv. apply Rmult_lt_compat_r; [|done].
  by apply Rinv_0_lt_compat.
Qed.

Lemma commandedForce_mono t a1 a2 :
  0 <= maximum_traction_force t -> 0 <= maximum_braking_force t ->
  a1 <= a2 ->
  Spec.commandedForce t a1 <= Spec.commandedForce t a2.
Proof.
  intros Htr Hbr Ha. unfold Spec.commandedForce.
  destruct (Rle_dec 0 a1), (Rle_dec 0 a2); nra.
Qed.

Lemma commandedForce_bounds t action :
  0 <= maximum_traction_force t -> 0 <= maximum_braking_force t ->
  -1 <= action <= 1 ->
  - maximum_braking_force t <= Spec.commandedForce t action
                            <= maximum_traction_force t.
Proof.
  intros Htr Hbr Ha. unfold Spec.commandedForce.
  destruct (Rle_dec 0 action); nra.
Qed.

(** X5: the three assertions are checked in the order action, shape, dt,
    and the first one that fails decides the message: a bad action is
    reported whatever the state and dt are, a bad shape only for a good
    action, a bad dt only for a good action and shape.  The store is left
    as it was. *)
Theorem step_assertion_order
    (σ : Store) (self state : loc) (arr : ndarray)
    (action dt : R) (ti jp sp : gmap string R) :
  arrays σ !! state = Some arr ->
  (~ (-1 <= action <= 1) ->
   step self state action dt ti jp sp σ
   = (Raise (AssertionError "Action must be in the range [-1, 1]"), σ)) /\
  (-1 <= action <= 1 -> shape arr <> [2%nat] ->
   step self state action dt ti jp sp σ
   = (Raise (AssertionError "State must be a 2D array with shape (2,)"), σ)) /\
  (-1 <= action <= 1 -> shape arr = [2%nat] -> dt <= 0 ->
   step self state action dt ti jp sp σ
   = (Raise (AssertionError "Time step must be positive"), σ)).
Proof.
  intros Harr. split; [apply step_action_out_of_range|].
  split.
  - intros Ha Hs. by eapply step_bad_shape.
  - intros Ha Hs Hdt. eapply step_bad_dt; eauto. lra.
Qed.

Lemma step_assertion_order_witness :
  arrays (example_store 0 0) !! 1%positive = Some (example_state 0 0) /\
  (~ (-1 <= 1 <= 1) ->
   step 1%positive 1%positive 1 0 ∅ ∅ ∅ (example_store 0 0)
   = (Raise (AssertionError "Action must be in the range [-1, 1]"),
      example_store 0 0)) /\
  (-1 <= 1 <= 1 -> shape (example_state 0 0) <> [2%nat] ->
   step 1%positive 1%positive 1 0 ∅ ∅ ∅ (example_store 0 0)
   = (Raise (AssertionError "State must be a 2D array with shape (2,)"),
      example_store 0 0)) /\
  (-1 <= 1 <= 1 -> shape (example_state 0 0) = [2%nat] -> 0 <= 0 ->
   step 1%positive 1%positive 1 0 ∅ ∅ ∅ (example_store 0 0)
   = (Raise (AssertionError "Time step must be positive"),
      example_store 0 0)).
Proof.
  split; [reflexivity|].
  apply (step_assertion_order (example_store 0 0) 1%positive 1%positive
           (example_state 0 0) 1 0 ∅ ∅ ∅).
  reflexivity.
Defined.

Lemma step_info_dom t v action dt : dom (step_info t v action dt) = info_keys.
Proof.
  unfold step_info, info_keys. rewrite !dom_insert_L, dom_empty_L. set_solver.
Qed.

(** X6: the diagnostics of a valid call have exactly the nine keys of the
    dictionary literal, each with a value; any other key is absent. *)
Theorem step_info_nine_keys
    (σ : Store) (self state : loc) (t : ATOSingleTrain)
    (p v action dt : R) (ti jp sp : gmap string R) :
  trains σ !! self = Some t ->
  arrays σ !! state = Some {| shape := [2%nat]; data := [p; v] |} ->
  -1 <= action <= 1 -> 0 < dt ->
  exists l info σ',
    step self state action dt ti jp sp σ = (Ok (l, info), σ') /\
    size info = 9%nat /\
    (forall key : string, key ∈ info_keys <-> is_Some (info !! key)).
Proof.
  intros Ht Hs Ha Hdt. eexists _, _, _.
  split; [by eapply step_run|].
  split.
  { rewrite <- size_dom, step_info_dom. reflexivity. }
  intros key. by rewrite <- (step_info_dom t v action dt), elem_of_dom.
Qed.

Lemma step_info_nine_keys_witness :
  trains (example_store 0 0) !! 1%positive = Some example_train /\
  -1 <= 1 <= 1 /\ 0 < 0.01 /\
  exists l info σ',
    step 1%positive 1%positive 1 0.01 ∅ ∅ ∅ (example_store 0 0)
      = (Ok (l, info), σ') /\
    size info = 9%nat /\
    (forall key : string, key ∈ info_keys <-> is_Some (info !! key)).
Proof.
  split; [reflexivity|]. split; [lra|]. split; [lra|].
  apply (step_info_nine_keys (example_store 0 0) 1%positive 1%positive
           example_train 0 0 1 0.01 ∅ ∅ ∅); [reflexivity|reflexivity|lra|lra].
Defined.

(** X7: with non-negative maximum forces the commanded force reported by a
    valid call lies between minus the maximum braking force and the maximum
    traction force, and has the sign of the action. *)
Theorem step_commanded_force_bounds
    (σ : Store) (self state : loc) (t : ATOSingleTrain)
    (p v action dt : R) (ti jp sp : gmap string R) :
  trains σ !! self = Some t ->
  arrays σ !! state = Some {| shape := [2%nat]; data := [p; v] |} ->
  -1 <= action <= 1 -> 0 < dt ->
  0 <= maximum_traction_force t -> 0 <= maximum_braking_force t ->
  exists l info σ' commanded,
    step self state action dt ti jp sp σ = (Ok (l, info), σ') /\
    info !! "input_force" = Some commanded /\
    - maximum_braking_force t <= commanded <= maximum_traction_force t /\
    (0 <= action -> 0 <= commanded) /\
    (action <= 0 -> commanded <= 0).
Proof.
  intros Ht Hs Ha Hdt Htr Hbr. eexists _, _, _, _.
  split; [by eapply step_run|].
  split; [apply step_info_input_force|].
  split; [by apply commandedForce_bounds|].
  unfold Spec.commandedForce. destruct (Rle_dec 0 action); split; intros; nra.
Qed.

Lemma step_commanded_force_bounds_witness :
  trains (example_store 0 0) !! 1%positive = Some example_train /\
  -1 <= -0.4 <= 1 /\ 0 < 0.01 /\
  0 <= maximum_traction_force example_train /\
  0 <= maximum_braking_force example_train /\
  exists l info σ' commanded,
    step 1%positive 1%positive (-0.4) 0.01 ∅ ∅ ∅ (example_store 0 0)
      = (Ok (l, info), σ') /\
    info !! "input_force" = Some commanded /\
    - maximum_braking_force example_train <= commanded
      <= maximum_traction_force example_train /\
    (0 <= -0.4 -> 0 <= commanded) /\
    (-0.4 <= 0 -> commanded <= 0).
Proof.
  split; [reflexivity|]. split; [lra|]. split; [lra|].
  split; [simpl; lra|]. split; [simpl; lra|].
  apply (step_commanded_force_bounds (example_store 0 0) 1%positive
           1%positive example_train 0 0 (-0.4) 0.01 ∅ ∅ ∅);
    [reflexivity|reflexivity|lra|lra|simpl; lra|simpl; lra].
Defined.

(** X8: for a positive mass and non-negative maximum forces, a larger
    action never gives a smaller returned velocity from the same state;
    the returned position does not depend on the action at all. *)
Theorem step_monotone_in_action
    (σ : Store) (self state : loc) (t : ATOSingleTrain)
    (p v action1 action2 dt : R) (ti jp sp : gmap string R) :
  trains σ !! self = Some t ->
  arrays σ !! state = Some {| shape := [2%nat]; data := [p; v] |} ->
  -1 <= action1 -> action1 <= action2 -> action2 <= 1 -> 0 < dt ->
  0 < train_mass t ->
  0 <= maximum_traction_force t -> 0 <= maximum_braking_force t ->
  exists l1 info1 σ1 l2 info2 σ2 pos vel1 vel2,
    step self state action1 dt ti jp sp σ = (Ok (l1, info1), σ1) /\
    step self state action2 dt ti jp sp σ = (Ok (l2, info2), σ2) /\
    arrays σ1 !! l1 = Some {| shape := [2%nat]; data := [pos; vel1] |} /\
    arrays σ2 !! l2 = Some {| shape := [2%nat]; data := [pos; vel2] |} /\
    vel1 <= vel2.
Proof.
  intros Ht Hs Hlo Hle Hhi Hdt Hm Htr Hbr.
  eexists _, _, _, _, _, _, _, _, _.
  split; [eapply step_run; eauto; lra|].
  split; [eapply step_run; eauto; lra|].
  split; [apply lookup_insert_eq|].
  split; [apply lookup_insert_eq|].
  apply Rle_min_compat_r.
  rewrite !acceleration_balance.
  pose proof (commandedForce_mono t action1 action2 Htr Hbr Hle) as Hc.
  pose proof (div_mass_mono
                (Spec.commandedForce t action1 - Spec.resistanceForce t v)
                (Spec.commandedForce t action2 - Spec.resistanceForce t v)
                (train_mass t) Hm) as Hd.
  nra.
Qed.

Lemma step_monotone_in_action_witness :
  trains (example_store 0 5) !! 1%positive = Some example_train /\
  -1 <= -0.5 /\ -0.5 <= 0.25 /\ 0.25 <= 1 /\ 0 < 0.01 /\
  0 < train_mass example_train /\
  exists l1 info1 σ1 l2 info2 σ2 pos vel1 vel2,
    step 1%positive 1%positive (-0.5) 0.01 ∅ ∅ ∅ (example_store 0 5)
      = (Ok (l1, info1), σ1) /\
    step 1%positive 1%positive 0.25 0.01 ∅ ∅ ∅ (example_store 0 5)
      = (Ok (l2, info2), σ2) /\
    arrays σ1 !! l1 = Some {| shape := [2%nat]; data := [pos; vel1] |} /\
    arrays σ2 !! l2 = Some {| shape := [2%nat]; data := [pos; vel2] |} /\
    vel1 <= vel2.
Proof.
  split; [reflexivity|]. split; [lra|]. split; [lra|]. split; [lra|].
  split; [lra|]. split; [simpl; lra|].
  apply (step_monotone_in_action (example_store 0 5) 1%positive 1%positive
           example_train 0 5 (-0.5) 0.25 0.01 ∅ ∅ ∅);
    [reflexivity|reflexivity|lra|lra|lra|lra|simpl; lra|simpl; lra|simpl; lra].
Defined.

Lemma resistanceForce_nonneg t v :
  0 <= a_davis_formula t -> 0 <= b_davis_formula t -> 0 <= c_davis_formula t ->
  a_davis_formula t <= Spec.resistanceForce t v.
Proof.
  intros Ha Hb Hc.
  apply (resistanceForce_mono t v v Hb Hc). lra.
Qed.

(** X9: with a positive mass, non-negative resistance coefficients and a
    non-positive action, a call in which some retarding force acts (the
    brake is applied with a positive maximum braking force, or a > 0)
    returns a velocity strictly below the one it was given.  Nothing stops
    this at zero: from a velocity v <= 0 the returned velocity is negative
    and larger in magnitude, the resistance pushing the same way. *)
Theorem step_retarding_decreases_velocity
    (σ : Store) (self state : loc) (t : ATOSingleTrain)
    (p v action dt : R) (ti jp sp : gmap string R) :
  trains σ !! self = Some t ->
  arrays σ !! state = Some {| shape := [2%nat]; data := [p; v] |} ->
  -1 <= action <= 0 -> 0 < dt ->
  0 < train_mass t ->
  0 <= maximum_braking_force t ->
  0 <= a_davis_formula t -> 0 <= b_davis_formula t -> 0 <= c_davis_formula t ->
  (action < 0 /\ 0 < maximum_braking_force t) \/ 0 < a_davis_formula t ->
  exists l info σ' pos' vel',
    step self state action dt ti jp sp σ = (Ok (l, info), σ') /\
    arrays σ' !! l = Some {| shape := [2%nat]; data := [pos'; vel'] |} /\
    vel' < v /\
    (v <= 0 -> vel' < 0 /\ Rabs v < Rabs vel').
Proof.
  intros Ht Hs Ha Hdt Hm Hbr Hca Hcb Hcc Hret.
  eexists _, _, _, _, _.
  split; [eapply step_run; eauto; lra|].
  split; [apply lookup_insert_eq|].
  assert (Hacc : Spec.acceleration t v action < 0).
  { rewrite acceleration_balance.
    pose proof (resistanceForce_nonneg t v Hca Hcb Hcc) as Hres.
    assert (Hcmd : Spec.commandedForce t action <= 0).
    { unfold Spec.commandedForce. destruct Ha as [_ Ha0].
      destruct (Rle_dec 0 action) as [Hge|Hlt].
      - replace action with 0 by lra. lra.
      - apply Rnot_le_lt in Hlt.
        pose proof (Rmult_le_pos (- action) (maximum_braking_force t)).
        lra. }
    assert (Hnet : Spec.commandedForce t action - Spec.resistanceForce t v < 0).
    { destruct Hret as [[Hneg Hpos]|Hpos]; [|lra].
      rewrite commandedForce_braking by done. nra. }
    pose proof (div_mass_mono_strict _ 0 _ Hm Hnet) as Hd.
    unfold Rdiv in Hd at 2. rewrite Rmult_0_l in Hd. done. }
  assert (Hvel : Rmin (v + Spec.acceleration t v action * dt) Spec.speedLimit
                 < v).
  { eapply Rle_lt_trans; [apply Rmin_l|]. nra. }
  split; [done|].
  intros Hv. split; [lra|].
  rewrite (Rabs_left (Rmin _ _)) by lra.
  destruct Hv as [Hv| ->].
  - rewrite (Rabs_left v) by done. lra.
  - rewrite Rabs_R0. lra.
Qed.

Lemma step_retarding_decreases_velocity_witness :
  trains (example_store 0 0) !! 1%positive = Some example_train /\
  -1 <= 0 <= 0 /\ 0 < 0.01 /\
  0 < train_mass example_train /\
  ((0 < 0 /\ 0 < maximum_braking_force example_train)
   \/ 0 < a_davis_formula example_train) /\
  exists l info σ' pos' vel',
    step 1%positive 1%positive 0 0.01 ∅ ∅ ∅ (example_store 0 0)
      = (Ok (l, info), σ') /\
    arrays σ' !! l = Some {| shape := [2%nat]; data := [pos'; vel'] |} /\
    vel' < 0 /\
    (0 <= 0 -> vel' < 0 /\ Rabs 0 < Rabs vel').
Proof.
  split; [reflexivity|]. split; [lra|]. split; [lra|].
  split; [simpl; lra|]. split; [right; simpl; lra|].
  apply (step_retarding_decreases_velocity (example_store 0 0) 1%positive
           1%positive example_train 0 0 0 0.01 ∅ ∅ ∅);
    [reflexivity|reflexivity|lra|lra|simpl; lra|simpl; lra|simpl; lra
    |simpl; lra|simpl; lra|right; simpl; lra].
Defined.

(** X10: with a positive mass, from a velocity at or below the speed limit,
    a valid call whose reported forces balance to a non-negative net force
    (commanded - gradient - curvature - resistance >= 0) returns a velocity
    that is not smaller and still within the limit; a positive net force
    from below the limit gives a strictly larger velocity. *)
Theorem step_traction_keeps_velocity
    (σ : Store) (self state : loc) (t : ATOSingleTrain)
    (p v action dt : R) (ti jp sp : gmap string R) :
  trains σ !! self = Some t ->
  arrays σ !! state = Some {| shape := [2%nat]; data := [p; v] |} ->
  -1 <= action <= 1 -> 0 < dt ->
  0 < train_mass t ->
  v <= 100 / 3.6 ->
  exists l info σ' commanded gradient curvature resistance pos' vel',
    step self state action dt ti jp sp σ = (Ok (l, info), σ') /\
    info !! "input_force" = Some commanded /\
    info !! "gradient_force" = Some gradient /\
    info !! "curvature_force" = Some curvature /\
    info !! "aero_drag_and_rolling_res" = Some resistance /\
    arrays σ' !! l = Some {| shape := [2%nat]; data := [pos'; vel'] |} /\
    (0 <= commanded - gradient - curvature - resistance ->
     v <= vel' <= 100 / 3.6) /\
    (0 < commanded - gradient - curvature - resistance -> v < 100 / 3.6 ->
     v < vel').
Proof.
  intros Ht Hs Ha Hdt Hm Hv.
  eexists _, _, _, _, _, _, _, _, _.
  split; [by eapply step_run|].
  split; [apply step_info_input_force|].
  split; [apply step_info_gradient_force|].
  split; [apply step_info_curvature_force|].
  split; [apply step_info_resistance|].
  split; [apply lookup_insert_eq|].
  change (Spec.commandedForce t action - Spec.gradientForce t 0
          - Spec.curvatureForce t 0 1 - Spec.resistanceForce t v)
    with (Spec.netForce t v action).
  unfold Spec.acceleration, Spec.speedLimit.
  split.
  - intros Hnet.
    pose proof (div_mass_mono 0 _ _ Hm Hnet) as Hd.
    unfold Rdiv in Hd at 1. rewrite Rmult_0_l in Hd.
    split; [|apply Rmin_r].
    apply Rmin_glb; nra.
  - intros Hnet Hlt.
    pose proof (div_mass_mono_strict 0 _ _ Hm Hnet) as Hd.
    unfold Rdiv in Hd at 1. rewrite Rmult_0_l in Hd.
    apply Rmin_glb_lt; nra.
Qed.

Lemma step_traction_keeps_velocity_witness :
  trains (example_store 0 0) !! 1%positive = Some example_train /\
  -1 <= 1 <= 1 /\ 0 < 0.01 /\ 0 < train_mass example_train /\
  0 <= 100 / 3.6 /\
  exists l info σ' commanded gradient curvature resistance pos' vel',
    step 1%positive 1%positive 1 0.01 ∅ ∅ ∅ (example_store 0 0)
      = (Ok (l, info), σ') /\
    info !! "input_force" = Some commanded /\
    info !! "gradient_force" = Some gradient /\
    info !! "curvature_force" = Some curvature /\
    info !! "aero_drag_and_rolling_res" = Some resistance /\
    arrays σ' !! l = Some {| shape := [2%nat]; data := [pos'; vel'] |} /\
    (0 <= commanded - gradient - curvature - resistance ->
     0 <= vel' <= 100 / 3.6) /\
    (0 < commanded - gradient - curvature - resistance -> 0 < 100 / 3.6 ->
     0 < vel').
Proof.
  split; [reflexivity|]. split; [lra|]. split; [lra|].
  split; [simpl; lra|]. split; [lra|].
  apply (step_traction_keeps_velocity (example_store 0 0) 1%positive
           1%positive example_train 0 0 1 0.01 ∅ ∅ ∅);
    [reflexivity|reflexivity|lra|lra|simpl; lra|lra].
Defined.

(** ** The driving loop *)

Lemma drive_run n : forall σ self state t p v action dt,
  trains σ !! self = Some t ->
  arrays σ !! state = Some {| shape := [2%nat]; data := [p; v] |} ->
  -1 <= action <= 1 -> 0 < dt ->
  exists l σ' pos vel,
    drive self state action dt n σ = (Ok l, σ') /\
    arrays σ' !! l = Some {| shape := [2%nat]; data := [pos; vel] |} /\
    (v <= 100 / 3.6 -> vel <= 100 / 3.6) /\
    ((1 <= n)%nat -> vel <= 100 / 3.6 /\ arrays σ !! l = None) /\
    trains σ' = trains σ /\
    (forall l' arr, arrays σ !! l' = Some arr -> arrays σ' !! l' = Some arr) /\
    size (arrays σ') = (size (arrays σ) + n)%nat.
Proof.
  induction n as [|n IH]; intros σ self state t p v action dt Ht Hs Ha Hdt.
  - exists state, σ, p, v. repeat split; try done; try lia.
  - cbn [drive].
    rewrite (bind_run _ _ _ _ _
               (step_run σ self state t p v action dt ∅ ∅ ∅ Ht Hs Ha Hdt)).
    cbn [fst].
    set (l1 := fresh (dom (arrays σ))).
    set (v1 := Rmin _ _).
    set (σ1 := {| trains := _; arrays := _ |}).
    assert (Hfresh : arrays σ !! l1 = None) by apply not_elem_of_dom, is_fresh.
    assert (Hv1 : v1 <= 100 / 3.6) by apply Rmin_r.
    destruct (IH σ1 self l1 t (p + v * dt) v1 action dt)
      as (l & σ' & pos & vel & Hrun & Hl & Hvel & Hpos & Htr & Hpres & Hsize);
      [done|apply lookup_insert_eq|done|done|].
    exists l, σ', pos, vel.
    split; [done|]. split; [done|].
    split; [auto|].
    split.
    { intros _. split; [auto|].
      destruct n as [|n].
      - cbn in Hrun. by injection Hrun as <- _.
      - destruct Hpos as [_ Hnone]; [lia|].
        destruct (arrays σ !! l) as [arr|] eqn:Hl'; [|done].
        assert (arrays σ1 !! l = Some arr); [|congruence].
        subst σ1. cbn. rewrite lookup_insert_ne; [done|congruence]. }
    split; [done|].
    split.
    { intros l' arr Hl'. apply Hpres. subst σ1. cbn.
      rewrite lookup_insert_ne; [done|congruence]. }
    rewrite Hsize. subst σ1. cbn.
    rewrite map_size_insert_None by done. lia.
Qed.

(** X11: a loop of [n] valid calls never fails: it returns a state of shape
    (2,), and after at least one call, or from a velocity within the limit,
    the velocity it ends with is at most the speed limit 100/3.6. *)
Theorem drive_total_within_limit
    (σ : Store) (self state : loc) (t : ATOSingleTrain)
    (p v action dt : R) (n : nat) :
  trains σ !! self = Some t ->
  arrays σ !! state = Some {| shape := [2%nat]; data := [p; v] |} ->
  -1 <= action <= 1 -> 0 < dt ->
  exists l σ' pos vel,
    drive self state action dt n σ = (Ok l, σ') /\
    arrays σ' !! l = Some {| shape := [2%nat]; data := [pos; vel] |} /\
    ((1 <= n)%nat \/ v <= 100 / 3.6 -> vel <= 100 / 3.6).
Proof.
  intros Ht Hs Ha Hdt.
  destruct (drive_run n σ self state t p v action dt Ht Hs Ha Hdt)
    as (l & σ' & pos & vel & Hrun & Hl & Hvel & Hpos & _).
  exists l, σ', pos, vel. repeat split; try done.
  intros [Hn|Hv]; [by apply Hpos|auto].
Qed.

Lemma drive_total_within_limit_witness :
  trains (example_store 0 40) !! 1%positive = Some example_train /\
  -1 <= 1 <= 1 /\ 0 < 0.01 /\
  exists l σ' pos vel,
    drive 1%positive 1%positive 1 0.01 100 (example_store 0 40) = (Ok l, σ') /\
    arrays σ' !! l = Some {| shape := [2%nat]; data := [pos; vel] |} /\
    ((1 <= 100)%nat \/ 40 <= 100 / 3.6 -> vel <= 100 / 3.6).
Proof.
  split; [reflexivity|]. split; [lra|]. split; [lra|].
  apply (drive_total_within_limit (example_store 0 40) 1%positive 1%positive
           example_train 0 40 1 0.01 100); [reflexivity|reflexivity|lra|lra].
Defined.

(** X12: a loop of [n] valid calls leaves the train objects and every
    array that existed before it as they were, the initial state array
    included, and allocates exactly [n] arrays; after at least one call the
    state it returns is one of the new arrays. *)
Theorem drive_frame
    (σ : Store) (self state : loc) (t : ATOSingleTrain)
    (p v action dt : R) (n : nat) :
  trains σ !! self = Some t ->
  arrays σ !! state = Some {| shape := [2%nat]; data := [p; v] |} ->
  -1 <= action <= 1 -> 0 < dt ->
  exists l σ',
    drive self state action dt n σ = (Ok l, σ') /\
    trains σ' = trains σ /\
    (forall l' arr, arrays σ !! l' = Some arr -> arrays σ' !! l' = Some arr) /\
    arrays σ' !! state = Some {| shape := [2%nat]; data := [p; v] |} /\
    size (arrays σ') = (size (arrays σ) + n)%nat /\
    ((1 <= n)%nat -> arrays σ !! l = None /\ l <> state).
Proof.
  intros Ht Hs Ha Hdt.
  destruct (drive_run n σ self state t p v action dt Ht Hs Ha Hdt)
    as (l & σ' & pos & vel & Hrun & Hl & _ & Hpos & Htr & Hpres & Hsize).
  exists l, σ'. repeat split; auto.
  - by apply Hpos.
  - intros ->. destruct (Hpos H) as [_ Hnone]. congruence.
Qed.

Lemma drive_frame_witness :
  trains (example_store 0 0) !! 1%positive = Some example_train /\
  -1 <= 1 <= 1 /\ 0 < 0.01 /\
  exists l σ',
    drive 1%positive 1%positive 1 0.01 100 (example_store 0 0) = (Ok l, σ') /\
    trains σ' = trains (example_store 0 0) /\
    (forall l' arr, arrays (example_store 0 0) !! l' = Some arr ->
                    arrays σ' !! l' = Some arr) /\
    arrays σ' !! 1%positive = Some {| shape := [2%nat]; data := [0; 0] |} /\
    size (arrays σ') = (size (arrays (example_store 0 0)) + 100)%nat /\
    ((1 <= 100)%nat ->
     arrays (example_store 0 0) !! l = None /\ l <> 1%positive).
Proof.
  split; [reflexivity|]. split; [lra|]. split; [lra|].
  apply (drive_frame (example_store 0 0) 1%positive 1%positive
           example_train 0 0 1 0.01 100); [reflexivity|reflexivity|lra|lra].
Defined.

(** X14: the loop validates nothing by itself: with zero iterations it
    returns the given state and store even for an action outside [-1, 1],
    while with at least one iteration such an action makes the first call
    raise [AssertionError], no array being allocated. *)
Theorem drive_invalid_action
    (σ : Store) (self state : loc) (action dt : R) (n : nat) :
  ~ (-1 <= action <= 1) ->
  drive self state action dt 0 σ = (Ok state, σ) /\
  drive self state action dt (S n) σ
  = (Raise (AssertionError "Action must be in the range [-1, 1]"), σ).
Proof.
  intros Ha. split; [done|].
  cbn [drive]. unfold bind.
  by rewrite (step_action_out_of_range _ _ _ _ _ _ _ _ Ha).
Qed.

Lemma drive_invalid_action_witness :
  ~ (-1 <= 1.5 <= 1) /\
  drive 1%positive 1%positive 1.5 0.01 0 (example_store 0 0)
  = (Ok 1%positive, example_store 0 0) /\
  drive 1%positive 1%positive 1.5 0.01 (S 99) (example_store 0 0)
  = (Raise (AssertionError "Action must be in the range [-1, 1]"),
     example_store 0 0).
Proof.
  assert (H : ~ (-1 <= 1.5 <= 1)) by lra.
  split; [exact H|].
  apply (drive_invalid_action (example_store 0 0) 1%positive 1%positive
           1.5 0.01 99 H).
Defined.

(** Invariants of the loop: what holds of the initial state and is kept by
    one call holds of the state after [n] calls. *)
Lemma drive_invariant n :
  forall (Inv : nat -> R -> R -> Prop) σ self state t p v action dt,
  trains σ !! self = Some t ->
  arrays σ !! state = Some {| shape := [2%nat]; data := [p; v] |} ->
  -1 <= action <= 1 -> 0 < dt ->
  Inv 0%nat p v ->
  (forall k p v,
      Inv k p v ->
      Inv (S k) (p + v * dt)
          (Rmin (v + Spec.acceleration t v action * dt) Spec.speedLimit)) ->
  exists l σ' pos vel,
    drive self state action dt n σ = (Ok l, σ') /\
    arrays σ' !! l = Some {| shape := [2%nat]; data := [pos; vel] |} /\
    Inv n pos vel.
Proof.
  induction n as [|n IH];
    intros Inv σ self state t p v action dt Ht Hs Ha Hdt H0 Hstep.
  - by exists state, σ, p, v.
  - cbn [drive].
    rewrite (bind_run _ _ _ _ _
               (step_run σ self state t p v action dt ∅ ∅ ∅ Ht Hs Ha Hdt)).
    cbn [fst].
    apply (IH (fun k => Inv (S k)) _ self _ t (p + v * dt)
              (Rmin (v + Spec.acceleration t v action * dt) Spec.speedLimit));
      auto.
    apply lookup_insert_eq.
Qed.

(** X15: from a velocity within the speed limit, [n] valid calls advance
    the position by at most n * dt * 100/3.6, whatever the train's constants
    and the action. *)
Theorem drive_distance_bound
    (σ : Store) (self state : loc) (t : ATOSingleTrain)
    (p v action dt : R) (n : nat) :
  trains σ !! self = Some t ->
  arrays σ !! state = Some {| shape := [2%nat]; data := [p; v] |} ->
  -1 <= action <= 1 -> 0 < dt ->
  v <= 100 / 3.6 ->
  exists l σ' pos vel,
    drive self state action dt n σ = (Ok l, σ') /\
    arrays σ' !! l = Some {| shape := [2%nat]; data := [pos; vel] |} /\
    pos <= p + INR n * dt * (100 / 3.6).
Proof.
  intros Ht Hs Ha Hdt Hv.
  destruct (drive_invariant n
              (fun k pos vel =>
                 vel <= 100 / 3.6 /\ pos <= p + INR k * dt * (100 / 3.6))
              σ self state t p v action dt Ht Hs Ha Hdt)
    as (l & σ' & pos & vel & Hrun & Hl & _ & Hpos).
  - split; [done|]. simpl. lra.
  - intros k p' v' [Hv' Hp']. split; [apply Rmin_r|].
    rewrite S_INR. nra.
  - by exists l, σ', pos, vel.
Qed.

Lemma drive_distance_bound_witness :
  trains (example_store 0 0) !! 1%positive = Some example_train /\
  -1 <= 1 <= 1 /\ 0 < 0.01 /\ 0 <= 100 / 3.6 /\
  exists l σ' pos vel,
    drive 1%positive 1%positive 1 0.01 100 (example_store 0 0) = (Ok l, σ') /\
    arrays σ' !! l = Some {| shape := [2%nat]; data := [pos; vel] |} /\
    pos <= 0 + INR 100 * 0.01 * (100 / 3.6).
Proof.
  split; [reflexivity|]. split; [lra|]. split; [lra|]. split; [lra|].
  apply (drive_distance_bound (example_store 0 0) 1%positive 1%positive
           example_train 0 0 1 0.01 100); [reflexivity|reflexivity|lra|lra|lra].
Defined.

(** X16: with a positive mass, non-negative maximum forces and
    non-negative resistance coefficients, [n] valid calls raise the velocity
    by at most n * dt * maximum_traction_force / mass. *)
Theorem drive_velocity_gain_bound
    (σ : Store) (self state : loc) (t : ATOSingleTrain)
    (p v action dt : R) (n : nat) :
  trains σ !! self = Some t ->
  arrays σ !! state = Some {| shape := [2%nat]; data := [p; v] |} ->
  -1 <= action <= 1 -> 0 < dt ->
  0 < train_mass t ->
  0 <= maximum_traction_force t -> 0 <= maximum_braking_force t ->
  0 <= a_davis_formula t -> 0 <= b_davis_formula t -> 0 <= c_davis_formula t ->
  exists l σ' pos vel,
    drive self state action dt n σ = (Ok l, σ') /\
    arrays σ' !! l = Some {| shape := [2%nat]; data := [pos; vel] |} /\
    vel <= v + INR n * dt * (maximum_traction_force t / train_mass t).
Proof.
  intros Ht Hs Ha Hdt Hm Htr Hbr Hca Hcb Hcc.
  destruct (drive_invariant n
              (fun k _ vel =>
                 vel <= v + INR k * dt
                            * (maximum_traction_force t / train_mass t))
              σ self state t p v action dt Ht Hs Ha Hdt)
    as (l & σ' & pos & vel & Hrun & Hl & Hvel).
  - simpl. lra.
  - intros k _ v' Hv'.
    eapply Rle_trans; [apply Rmin_l|].
    rewrite S_INR, acceleration_balance.
    pose proof (resistanceForce_nonneg t v' Hca Hcb Hcc) as Hres.
    pose proof (commandedForce_bounds t action Htr Hbr Ha) as [_ Hcmd].
    pose proof (div_mass_mono
                  (Spec.commandedForce t action - Spec.resistanceForce t v')
                  (maximum_traction_force t) (train_mass t) Hm) as Hd.
    nra.
  - by exists l, σ', pos, vel.
Qed.

Lemma drive_velocity_gain_bound_witness :
  trains (example_store 0 0) !! 1%positive = Some example_train /\
  -1 <= 1 <= 1 /\ 0 < 0.01 /\ 0 < train_mass example_train /\
  exists l σ' pos vel,
    drive 1%positive 1%positive 1 0.01 100 (example_store 0 0) = (Ok l, σ') /\
    arrays σ' !! l = Some {| shape := [2%nat]; data := [pos; vel] |} /\
    vel <= 0 + INR 100 * 0.01
               * (maximum_traction_force example_train
                  / train_mass example_train).
Proof.
  split; [reflexivity|]. split; [lra|]. split; [lra|]. split; [simpl; lra|].
  apply (drive_velocity_gain_bound (example_store 0 0) 1%positive 1%positive
           example_train 0 0 1 0.01 100);
    [reflexivity|reflexivity|lra|lra|simpl; lra|simpl; lra|simpl; lra
    |simpl; lra|simpl; lra|simpl; lra].
Defined.
